(** * Switchyard: the live-network device layer ([switchyard/llnetreal.py])

    A shallow embedding of [LLNetReal]: the shared packet queue, the
    process-wide running flag, the capture workers, the signal handler,
    [recv_packet], [send_packet] and [shutdown].

    Conventions.
    - The mutable state the methods share (the class attribute
      [LLNetReal.running], the queue object, the thread list, the dictionary
      of pcap handles) is one record, [World], threaded through every
      operation.
    - Calls on objects outside the class (the logger, [Thread.join],
      the pcap handle) leave an [Event] in [trace], in program order.
    - An operation returns an [Outcome]: a value, a raised exception, or
      the fact that the caller is left waiting. *)

From Stdlib Require Import ZArith QArith List String Bool Lia.
From stdpp Require Import base option list strings gmap.

Open Scope string_scope.
Open Scope Z_scope.
Open Scope list_scope.

(** ** Values of the collaborating modules *)

(** Modelled from the spec: [pcapffi.Dlt], the enumeration of link-layer
    encapsulation types, is not among the sources; a link type is its libpcap
    code. *)
Definition Dlt : Type := Z.
Definition DLT_NULL : Dlt := 0.
Definition DLT_EN10MB : Dlt := 1.

(** Header classes handed to [Packet] as [first_header]. *)
Inductive HeaderClass := Ethernet | Null.

(** Modelled from the spec: the packet codec ([lib.packet]) is not among the
    sources; a decoded packet is the header class it was parsed with and
    the bytes it was parsed from, and [to_bytes] gives them back. *)
Record Packet := mkPacket { first_header : HeaderClass; contents : list Byte.byte }.

Definition to_bytes (p : Packet) : list Byte.byte := contents p.

(** The capture record a pcap handle returns ([timestamp], [raw]). *)
Record PktInfo := mkPktInfo { timestamp : Q; raw : list Byte.byte }.

(** [ReceivedPacket(timestamp, ingress_dev, packet)] of [llnetbase].
    [ingress_dev] is whatever the queue entry carried as device. *)
Record ReceivedPacket := mkReceivedPacket {
  rp_timestamp : Q;
  ingress_dev : option string;
  packet : Packet
}.

(** Values that appear as arguments of a format string. *)
Inductive Val :=
| VNone
| VStr (s : string)
| VDlt (d : Dlt)
| VNat (n : nat)
| VType (name : string)
| VPacket (p : Packet).

(** A message: the format string and the arguments of [.format]. *)
Record Msg := mkMsg { fmt : string; args : list Val }.

Definition text (s : string) : Msg := mkMsg s [].

(** Exceptions, by class. [SwitchyException], [Shutdown] and [NoPackets]
    come from [lib.exceptions]; [Empty] of [queue] never leaves
    [recv_packet] and is part of [GetResult] below. *)
Inductive Exn :=
| SwitchyException (m : Msg)
| Shutdown
| NoPackets
| ValueError (m : Msg)
| AttributeError (m : Msg)
| PcapException.

Inductive ExnClass :=
| cSwitchyException | cShutdown | cNoPackets | cValueError | cAttributeError
| cPcapException.

Definition exn_class (e : Exn) : ExnClass :=
  match e with
  | SwitchyException _ => cSwitchyException
  | Shutdown => cShutdown
  | NoPackets => cNoPackets
  | ValueError _ => cValueError
  | AttributeError _ => cAttributeError
  | PcapException => cPcapException
  end.

Definition exn_msg (e : Exn) : option Msg :=
  match e with
  | SwitchyException m | ValueError m | AttributeError m => Some m
  | Shutdown | NoPackets | PcapException => None
  end.

(** What a call does: it returns, it raises, it is left waiting (a blocking
    [get] on an empty queue, a [join] on a worker that keeps polling), or
    the model ran out of loop iterations. *)
Inductive Outcome (A : Type) :=
| Returned (a : A)
| Raised (e : Exn)
| Blocked
| OutOfFuel.
Arguments Returned {A} a.
Arguments Raised {A} e.
Arguments Blocked {A}.
Arguments OutOfFuel {A}.

(** ** The shared queue *)

(** A queue entry is the triple a worker puts, [(devname, dlt, pktinfo)];
    each component may be [None]. *)
Definition Entry : Type := option string * option Dlt * option PktInfo.

(** The dummy entry of the signal handler, [(None, None, None)]. *)
Definition sentinel : Entry := (None, None, None).

Definition captured (devname : string) (dlt : Dlt) (pktinfo : PktInfo) : Entry :=
  (Some devname, Some dlt, Some pktinfo).

Module Queue.

Definition t : Type := list Entry.

Definition put (e : Entry) (q : t) : t := q ++ [e].

Definition qsize (q : t) : nat := length q.

Inductive GetResult :=
| Item (e : Entry) (rest : t)
| Empty
| Waits
| BadTimeout.

(** [Queue.get(timeout=timeout)], [block] left at [True]. Without a
    timeout the caller waits until an entry is there. A negative timeout
    is refused before the queue is looked at. With a timeout and nothing
    queued, no producer runs during the wait and [Empty] is raised. *)
Definition get (timeout : option Q) (q : t) : GetResult :=
  match timeout with
  | None =>
      match q with
      | [] => Waits
      | e :: rest => Item e rest
      end
  | Some secs =>
      if negb (Qle_bool 0 secs) then BadTimeout
      else match q with
           | [] => Empty
           | e :: rest => Item e rest
           end
  end.

End Queue.

(** ** The decoder table *)

Definition Decoder : Type := list Byte.byte -> Packet.

Definition _dlt_to_decoder : gmap Z Decoder :=
  <[DLT_NULL := λ raw, mkPacket Null raw]>
    (<[DLT_EN10MB := λ raw, mkPacket Ethernet raw]> ∅).

(** [_dlt_to_decoder.get(dlt, None)]; the key may be [None], which the
    table does not hold. *)
Definition decoder_get (dlt : option Dlt) : option Decoder :=
  dlt ≫= (_dlt_to_decoder !!.).

(** ** Pcap handles, threads and the shared state *)

Record PcapStats := mkPcapStats { ps_recv : nat; ps_drop : nat; ps_ifdrop : nat }.

(** Modelled from the spec: [pcapffi.PcapLiveDevice] is not among the
    sources. A handle has a link type, the results its next polls will give
    ([None] for a poll that times out), counters, the frames injected
    through it, whether injection works, and how many times it has been
    closed. *)
Record Pdev := mkPdev {
  dlt : Dlt;
  pending : list (option PktInfo);
  stats : PcapStats;
  injected : list (list Byte.byte);
  can_inject : bool;
  closed : nat
}.

Definition Pdev_close (p : Pdev) : Pdev :=
  mkPdev (dlt p) (pending p) (stats p) (injected p) (can_inject p) (S (closed p)).

Definition Pdev_recv_packet (p : Pdev) : option PktInfo * Pdev :=
  match pending p with
  | [] => (None, p)
  | None :: rest =>
      (None, mkPdev (dlt p) rest (stats p) (injected p) (can_inject p) (closed p))
  | Some pktinfo :: rest =>
      (Some pktinfo,
       mkPdev (dlt p) rest
              (mkPcapStats (S (ps_recv (stats p))) (ps_drop (stats p)) (ps_ifdrop (stats p)))
              (injected p) (can_inject p) (closed p))
  end.

Definition Pdev_send_packet (rawpkt : list Byte.byte) (p : Pdev) : option Pdev :=
  if can_inject p
  then Some (mkPdev (dlt p) (pending p) (stats p) (injected p ++ [rawpkt]) (can_inject p) (closed p))
  else None.

(** A dictionary keyed by device name, in insertion order. *)
Module Dict.

Definition t (V : Type) : Type := list (string * V).

Fixpoint get {V} (k : string) (d : t V) : option V :=
  match d with
  | [] => None
  | (k', v) :: d' => if String.eqb k k' then Some v else get k d'
  end.

(** [d[k] = v]: overwrite in place, or append. *)
Fixpoint set {V} (k : string) (v : V) (d : t V) : t V :=
  match d with
  | [] => [(k, v)]
  | (k', v') :: d' =>
      if String.eqb k k' then (k', v) :: d' else (k', v') :: set k v d'
  end.

Definition keys {V} (d : t V) : list string := map fst d.

End Dict.

(** A worker thread: the device it was started on (the handle is the one
    [_pcaps] holds under that name) and whether its target has returned. *)
Record Thread := mkThread { th_dev : string; th_done : bool }.

Inductive Signal := SIGHUP | SIGINT | SIGQUIT | SIGTERM | SIGUSR1 | SIGUSR2.

Definition Signal_eqb (a b : Signal) : bool :=
  match a, b with
  | SIGHUP, SIGHUP | SIGINT, SIGINT | SIGQUIT, SIGQUIT
  | SIGTERM, SIGTERM | SIGUSR1, SIGUSR1 | SIGUSR2, SIGUSR2 => true
  | _, _ => false
  end.

Inductive Level := DEBUG | INFO | WARNING.

Inductive Event :=
| EvLog (lvl : Level) (m : Msg)
| EvRunning (b : bool)
| EvJoin (devname : string)
| EvPoll (devname : string)
| EvStats (devname : string)
| EvInject (devname : string) (rawpkt : list Byte.byte)
| EvClose (devname : string).

Record World := mkWorld {
  running : bool;
  _pktqueue : Queue.t;
  _threads : list Thread;
  _pcaps : Dict.t Pdev;
  handled : list Signal;
  trace : list Event
}.

Definition emit (ev : Event) (w : World) : World :=
  mkWorld (running w) (_pktqueue w) (_threads w) (_pcaps w) (handled w) (trace w ++ [ev]).

Definition log_debug (m : Msg) : World -> World := emit (EvLog DEBUG m).
Definition log_info (m : Msg) : World -> World := emit (EvLog INFO m).
Definition log_warn (m : Msg) : World -> World := emit (EvLog WARNING m).

(** [LLNetReal.running = b] *)
Definition set_running (b : bool) (w : World) : World :=
  emit (EvRunning b)
       (mkWorld b (_pktqueue w) (_threads w) (_pcaps w) (handled w) (trace w)).

Definition set_pktqueue (q : Queue.t) (w : World) : World :=
  mkWorld (running w) q (_threads w) (_pcaps w) (handled w) (trace w).

Definition set_threads (ts : list Thread) (w : World) : World :=
  mkWorld (running w) (_pktqueue w) ts (_pcaps w) (handled w) (trace w).

Definition set_pcaps (d : Dict.t Pdev) (w : World) : World :=
  mkWorld (running w) (_pktqueue w) (_threads w) d (handled w) (trace w).

Definition pktqueue_put (e : Entry) (w : World) : World :=
  set_pktqueue (Queue.put e (_pktqueue w)) w.

Definition dlt_val (dlt : option Dlt) : Val :=
  match dlt with
  | None => VNone
  | Some d => VDlt d
  end.

(** ** [recv_packet] *)

Section Receive.

(** What the signal handler and the other threads do to the shared state
    between the return of [Queue.get] (or its [Empty]) and the read of
    [LLNetReal.running] that follows it. *)
Variable preempt : World -> World.

Fixpoint recv_packet (fuel : nat) (timeout : option Q) (w : World)
  : Outcome ReceivedPacket * World :=
  match fuel with
  | O => (OutOfFuel, w)
  | S fuel' =>
      match Queue.get timeout (_pktqueue w) with
      | Queue.Item (dev, dlt, pktinfo) rest =>
          let w1 := preempt (set_pktqueue rest w) in
          if negb (running w1) then (Raised Shutdown, w1)
          else
            match decoder_get dlt with
            | None =>
                recv_packet fuel' timeout
                  (log_warn (mkMsg "Received packet with unparseable encapsulation {}"
                                   [dlt_val dlt]) w1)
            | Some decoder =>
                match pktinfo with
                | None =>
                    (Raised (AttributeError (text "'NoneType' object has no attribute 'raw'")), w1)
                | Some pi =>
                    (Returned (mkReceivedPacket (timestamp pi) dev (decoder (raw pi))), w1)
                end
            end
      | Queue.Empty =>
          let w1 := preempt w in
          if negb (running w1) then (Raised Shutdown, w1)
          else (Raised NoPackets, w1)
      | Queue.Waits => (Blocked, w)
      | Queue.BadTimeout =>
          (Raised (ValueError (text "'timeout' must be a non-negative number")), w)
      end
  end.

End Receive.

(** ** Operations as state transformers with an outcome *)

Definition M (A : Type) : Type := World -> Outcome A * World.

Definition ret {A} (a : A) : M A := λ w, (Returned a, w).

Definition bind {A B} (m : M A) (k : A -> M B) : M B :=
  λ w, match m w with
       | (Returned a, w') => k a w'
       | (Raised e, w') => (Raised e, w')
       | (Blocked, w') => (Blocked, w')
       | (OutOfFuel, w') => (OutOfFuel, w')
       end.

(** A step that only changes the state. *)
Definition act (f : World -> World) : M unit := λ w, (Returned tt, f w).

Notation "'let*' x ':=' m 'in' k" := (bind m (λ x, k))
  (at level 10, x name, m at level 100, k at level 200).
Notation "m >>> k" := (bind m (λ _, k))
  (at level 90, right associativity).

(** ** The capture worker, [__low_level_dispatch] *)

Definition no_stats : PcapStats := mkPcapStats 0 0 0.

(** [pcapdev.stats()] of the handle a worker was started on. A name with
    no handle in [_pcaps] is not one [__spawn_threads] starts a worker
    on; it reads as a handle that never saw a frame. *)
Definition stats_of (devname : string) (w : World) : PcapStats :=
  match Dict.get devname (_pcaps w) with
  | Some pcapdev => stats pcapdev
  | None => no_stats
  end.

(** The body of the loop: one poll of the handle, and a [put] when the
    poll gave a frame. *)
Definition dispatch_iter (devname : string) (w : World) : World :=
  match Dict.get devname (_pcaps w) with
  | None => w
  | Some pcapdev =>
      let '(pktinfo, pcapdev') := Pdev_recv_packet pcapdev in
      let w1 := emit (EvPoll devname) (set_pcaps (Dict.set devname pcapdev' (_pcaps w)) w) in
      match pktinfo with
      | None => w1
      | Some pi => pktqueue_put (Some devname, Some (dlt pcapdev'), Some pi) w1
      end
  end.

(** The statements after the loop. *)
Definition dispatch_exit (devname : string) (w : World) : World :=
  let w1 := log_debug (mkMsg "Receiver thread for {} exiting" [VStr devname]) w in
  let st := stats_of devname w1 in
  let w2 := emit (EvStats devname) w1 in
  log_debug (mkMsg "Final device statistics {}: {} received, {} dropped, {} dropped/if"
                   [VStr devname; VNat (ps_recv st); VNat (ps_drop st); VNat (ps_ifdrop st)])
            w2.

Fixpoint low_level_dispatch (fuel : nat) (devname : string) : M unit :=
  λ w,
    match fuel with
    | O => (OutOfFuel, w)
    | S fuel' =>
        if running w
        then low_level_dispatch fuel' devname (dispatch_iter devname w)
        else (Returned tt, dispatch_exit devname w)
    end.

(** ** The signal handler *)

Definition _sig_handler (signum : Signal) (w : World) : World :=
  let w1 := log_debug (text "Got SIGINT.") w in
  if Signal_eqb signum SIGINT then
    let w2 := set_running false w1 in
    if Nat.eqb (Queue.qsize (_pktqueue w2)) 0
    then pktqueue_put sentinel w2
    else w2
  else w1.

(** The signals [__init__] installs [_sig_handler] for. *)
Definition consumed_signals : list Signal :=
  [SIGINT; SIGTERM; SIGHUP; SIGUSR1; SIGUSR2].

(** Delivery of a signal to the process: the installed handler runs; for a
    signal without one the default disposition applies, which is outside the
    program. *)
Definition deliver (signum : Signal) (w : World) : option World :=
  if existsb (Signal_eqb signum) (handled w)
  then Some (_sig_handler signum w)
  else None.

(** ** [shutdown] *)

(** [t.join()]: immediate for a thread whose target has returned;
    otherwise the caller waits while the worker runs on from its loop
    test. (A poll that was in flight is a [dispatch_iter] before the
    join; a worker that left its loop on its own has [th_done] set and has
    logged its lines earlier.) *)
Definition Thread_join (fuel : nat) (t : Thread) : M Thread :=
  if th_done t then
    act (emit (EvJoin (th_dev t))) >>> ret t
  else
    low_level_dispatch fuel (th_dev t) >>>
    act (emit (EvJoin (th_dev t))) >>>
    ret (mkThread (th_dev t) true).

(** [for t in self._threads: t.join()]; [joined] are the threads already
    waited for. *)
Fixpoint join_each (fuel : nat) (joined todo : list Thread) : M unit :=
  match todo with
  | [] => ret tt
  | t :: todo' =>
      let* t' := Thread_join fuel t in
      act (set_threads (joined ++ t' :: todo')) >>>
      join_each fuel (joined ++ [t']) todo'
  end.

(** [for devname,pdev in self._pcaps.items(): pdev.close()] *)
Fixpoint close_each (seen todo : Dict.t Pdev) (w : World) : World :=
  match todo with
  | [] => w
  | (devname, pdev) :: todo' =>
      let seen' := seen ++ [(devname, Pdev_close pdev)] in
      close_each seen' todo' (emit (EvClose devname) (set_pcaps (seen' ++ todo') w))
  end.

Definition shutdown (fuel : nat) : M unit :=
  λ w,
    if negb (running w) then (Returned tt, w)
    else
      (act (set_running false) >>>
       act (log_debug (text "Joining threads for shutdown")) >>>
       join_each fuel [] (_threads w) >>>
       act (log_debug (text "Closing pcap devices")) >>>
       act (λ w', close_each [] (_pcaps w') w') >>>
       act (log_debug (text "Done cleaning up"))) w.

(** ** [send_packet] *)

(** An [Interface] of [lib.interface], as far as this module reads it. *)
Record Interface := mkInterface { name : string; ifnum : Z }.

(** What a caller may give as [dev]. *)
Inductive DevRef :=
| DevName (s : string)
| DevNum (n : Z)
| DevIntf (intf : Interface).

(** What a caller may give as [packet]: [None], a [Packet], or an object
    of some other type. *)
Inductive PyObj :=
| PyNone
| PyPacket (p : Packet)
| PyOther (type_name : string).

Section Send.

(** [LLNetBase._lookup_devname], inherited; the base class is not among
    the sources. It gives the name of the device with that interface
    number or raises. *)
Variable _lookup_devname : Z -> Exn + string.

(** The two [isinstance] rewrites of [dev] at the head of [send_packet]. *)
Definition resolve (dev : DevRef) : Exn + string :=
  match dev with
  | DevNum n => _lookup_devname n
  | DevIntf intf => inr (name intf)
  | DevName s => inr s
  end.

Definition send_packet (dev : DevRef) (packet : PyObj) : M unit :=
  λ w,
    match resolve dev with
    | inl e => (Raised e, w)
    | inr dev =>
        match Dict.get dev (_pcaps w) with
        | None =>
            (Raised (SwitchyException
                       (mkMsg "Unrecognized device name for packet send: {}" [VStr dev])), w)
        | Some pdev =>
            match packet with
            | PyNone =>
                (Raised (SwitchyException (text "No packet object given to send_packet")), w)
            | PyOther ty =>
                (Raised (SwitchyException
                           (mkMsg "Object given to send_packet is not a Packet (it is: {})"
                                  [VType ty])), w)
            | PyPacket p =>
                let rawpkt := to_bytes p in
                let w1 := log_debug (mkMsg "Sending packet on device {}: {}"
                                           [VStr dev; VPacket p]) w in
                match Pdev_send_packet rawpkt pdev with
                | None => (Raised PcapException, w1)
                | Some pdev' =>
                    (Returned tt,
                     emit (EvInject dev rawpkt)
                          (set_pcaps (Dict.set dev pdev' (_pcaps w1)) w1))
                end
            end
        end
    end.

End Send.

(** ** Construction *)

(** [__make_pcaps]: one handle per name of [devlist], in order; a name
    given twice keeps the handle opened last. *)
Definition make_pcaps (PcapLiveDevice : string -> Pdev) (devs : list string) : Dict.t Pdev :=
  fold_left (λ pcaps dev, Dict.set dev (PcapLiveDevice dev) pcaps) devs [].

(** [__spawn_threads]: a fresh queue and one thread per handle. The
    threads are started: from here on their polls ([dispatch_iter]) come
    at any point between the operations of the main thread, so the queue
    is empty only until the first of them. *)
Definition spawn_threads (w : World) : World :=
  set_threads (map (λ item, mkThread (fst item) false) (_pcaps w))
              (set_pktqueue [] w).

(** [LLNetReal.__init__], without the interface discovery
    ([__assemble_devinfo]), the debug line per interface that it feeds, and
    the host name. [PcapLiveDevice] gives the handle that opening a name
    yields; every open is taken to succeed. *)
Definition LLNetReal_init (PcapLiveDevice : string -> Pdev) (devlist : list string) : World :=
  let w0 := mkWorld false [] [] (make_pcaps PcapLiveDevice devlist) consumed_signals [] in
  let w1 := log_info (mkMsg "Using network devices: {}" [VStr (String.concat " " devlist)]) w0 in
  spawn_threads (set_running true w1).

(** ** A two-interface instance, used to run the operations *)

Definition frame1 : PktInfo := mkPktInfo 1 [Byte.x01; Byte.x02].
Definition frame2 : PktInfo := mkPktInfo (3 # 2) [Byte.x45].

(** Opening ["lo0"] gives a handle without link layer and nothing to read;
    any other name gives an Ethernet handle with one frame, a poll that times
    out, then a second frame. *)
Definition open_dev (devname : string) : Pdev :=
  if String.eqb devname "lo0"
  then mkPdev DLT_NULL [] no_stats [] true 0
  else mkPdev DLT_EN10MB [Some frame1; None; Some frame2] no_stats [] true 0.

Definition net2 : World := LLNetReal_init open_dev ["en0"; "lo0"].

(** A link type the table has no decoder for (IEEE 802.11). *)
Definition DLT_IEEE802_11 : Dlt := 105.

(** [net2] with a decodable frame queued. *)
Definition net2_one : World := pktqueue_put (captured "en0" DLT_EN10MB frame1) net2.

(** The queue of [net2] after a frame of unknown link type and a frame
    from ["en0"] have been put. *)
Definition net2_mixed : World :=
  pktqueue_put (captured "en0" DLT_EN10MB frame2)
    (pktqueue_put (captured "wlan0" DLT_IEEE802_11 frame1) net2).

(** No interface numbers are known. *)
Definition no_ifnum (n : Z) : Exn + string :=
  inl (SwitchyException (text "no such interface number")).

(** The signal handler as the interruption between a [get] and the test
    of the flag. *)
Definition sigint : World -> World := _sig_handler SIGINT.

(** ** Failure kinds of [send_packet], as the specification names them *)

Definition is_unknown_device_error (e : Exn) : bool :=
  match e with
  | SwitchyException m => String.eqb (fmt m) "Unrecognized device name for packet send: {}"
  | _ => false
  end.

Definition is_invalid_packet_error (e : Exn) : bool :=
  match e with
  | SwitchyException m =>
      String.eqb (fmt m) "No packet object given to send_packet"
      || String.eqb (fmt m) "Object given to send_packet is not a Packet (it is: {})"
  | _ => false
  end.

Definition is_packet (packet : PyObj) : bool :=
  match packet with
  | PyPacket _ => true
  | _ => false
  end.

(** ** Events of a trace *)

Definition is_close (ev : Event) : bool :=
  match ev with EvClose _ => true | _ => false end.

Definition is_join (ev : Event) : bool :=
  match ev with EvJoin _ => true | _ => false end.

(** The events a worker leaves after its loop. *)
Definition exit_events (devname : string) (st : PcapStats) : list Event :=
  [EvLog DEBUG (mkMsg "Receiver thread for {} exiting" [VStr devname]);
   EvStats devname;
   EvLog DEBUG (mkMsg "Final device statistics {}: {} received, {} dropped, {} dropped/if"
                      [VStr devname; VNat (ps_recv st); VNat (ps_drop st); VNat (ps_ifdrop st)])].

(** The events of joining one thread while the flag is false. *)
Definition join_events (pcaps : Dict.t Pdev) (t : Thread) : list Event :=
  (if th_done t then []
   else exit_events (th_dev t)
          (match Dict.get (th_dev t) pcaps with
           | Some pcapdev => stats pcapdev
           | None => no_stats
           end))
  ++ [EvJoin (th_dev t)].

Definition finished (t : Thread) : Thread := mkThread (th_dev t) true.

Definition close_item (item : string * Pdev) : string * Pdev :=
  (fst item, Pdev_close (snd item)).

(** The close counters of the handles, in dictionary order. *)
Definition close_counts (w : World) : list nat := map (λ item, closed (snd item)) (_pcaps w).

(** Several events at once. *)
Definition emits (evs : list Event) (w : World) : World :=
  mkWorld (running w) (_pktqueue w) (_threads w) (_pcaps w) (handled w) (trace w ++ evs).

(** The events of a [shutdown] that finds the flag true, in order. *)
Definition shutdown_events (w : World) : list Event :=
  [EvRunning false; EvLog DEBUG (text "Joining threads for shutdown")]
  ++ flat_map (join_events (_pcaps w)) (_threads w)
  ++ [EvLog DEBUG (text "Closing pcap devices")]
  ++ map EvClose (Dict.keys (_pcaps w))
  ++ [EvLog DEBUG (text "Done cleaning up")].

(** The state a [shutdown] that finds the flag true leaves. *)
Definition stopped (w : World) : World :=
  mkWorld false (_pktqueue w) (map finished (_threads w)) (map close_item (_pcaps w))
          (handled w) (trace w ++ shutdown_events w).

(** ** [main_real] *)

(** The command-line options [main_real] reads. *)
Record Options := mkOptions { dryrun : bool; nohandle : bool; nopdb : bool }.

(** What [main_real] writes beside the log of the network object: the
    failure line of [log_failure], the red banner with the traceback, the
    notice that the debugger is entered, and the post-mortem session. *)
Inductive Output :=
| OutFailure (e : Exn)
| OutBanner
| OutPdbNotice
| OutPostMortem.

Record Process := mkProcess { net : World; console : list Output }.

(** [main_real(usercode, netobj, options)]. [usercode_entry_point] is what
    [import_or_die] found in the user's module; it is called with the
    network object. Every exception of [Exn] is an [Exception]. *)
Definition main_real (usercode_entry_point : M unit) (fuel : nat) (options : Options)
  (p : Process) : Outcome unit * Process :=
  if dryrun options then
    let w1 := log_info (text "Imported your code successfully.  Exiting dry run.") (net p) in
    let '(o, w2) := shutdown fuel w1 in
    (o, mkProcess w2 (console p))
  else
    match usercode_entry_point (net p) with
    | (Raised e, w1) =>
        let out := console p ++ [OutFailure e; OutBanner] in
        if nohandle options then (Raised e, mkProcess w1 out)
        else if negb (nopdb options)
             then (Returned tt, mkProcess w1 (out ++ [OutPdbNotice; OutPostMortem]))
             else (Returned tt, mkProcess w1 out)
    | (Returned _, w1) =>
        let '(o, w2) := shutdown fuel w1 in
        (o, mkProcess w2 (console p))
    | (Blocked, w1) => (Blocked, mkProcess w1 (console p))
    | (OutOfFuel, w1) => (OutOfFuel, mkProcess w1 (console p))
    end.

(** ** Vocabulary of the further properties *)

(** A timeout [Queue.get] accepts: none, or a non-negative number. *)
Definition timeout_ok (timeout : option Q) : bool :=
  match timeout with
  | None => true
  | Some secs => Qle_bool 0 secs
  end.

(** The link type of an entry has no decoder. *)
Definition undecodable (e : Entry) : bool :=
  match decoder_get (snd (fst e)) with
  | Some _ => false
  | None => true
  end.

(** The warning [recv_packet] logs when it skips an entry. *)
Definition warn_for (e : Entry) : Event :=
  EvLog WARNING (mkMsg "Received packet with unparseable encapsulation {}"
                       [dlt_val (snd (fst e))]).

(** The frames among the results of polls, in order. *)
Definition frames (polls : list (option PktInfo)) : list PktInfo := omap id polls.

(** One worker per handle, in the order of the dictionary, whose names are
    pairwise different. *)
Definition one_worker_per_handle (w : World) : Prop :=
  map th_dev (_threads w) = Dict.keys (_pcaps w) /\ NoDup (Dict.keys (_pcaps w)).

(** User code that receives once, without timeout, and does nothing with
    the result. *)
Definition receive_once : M unit :=
  λ w, match recv_packet id 1 None w with
       | (Returned _, w') => (Returned tt, w')
       | (Raised e, w') => (Raised e, w')
       | (Blocked, w') => (Blocked, w')
       | (OutOfFuel, w') => (OutOfFuel, w')
       end.

(** [net2] with only a frame of unknown link type queued. *)
Definition net2_noise : World :=
  pktqueue_put (captured "wlan0" DLT_IEEE802_11 frame1) net2.

(** A process around [sigint net2]: the interrupt has come before the user
    code runs. *)
Definition interrupted : Process := mkProcess (sigint net2) [].

(** Exceptions are handled, the debugger is not entered. *)
Definition quiet : Options := mkOptions false false true.

(** [net2] after the worker of ["en0"] has polled three times: two frames
    are queued. *)
Definition net2_flooded : World := Nat.iter 3 (dispatch_iter "en0") net2.

(** * Properties *)

(** ** The receive loop *)

Section ReceiveFacts.

Variable preempt : World -> World.

Lemma recv_timed_out fuel timeout w :
  Queue.get timeout (_pktqueue w) = Queue.Empty ->
  recv_packet preempt (S fuel) timeout w =
    (Raised (if running (preempt w) then NoPackets else Shutdown), preempt w).
Proof.
  intros Hget. cbn [recv_packet]. rewrite Hget.
  destruct (running (preempt w)); reflexivity.
Qed.

Lemma recv_popped_stopping fuel timeout w e rest :
  Queue.get timeout (_pktqueue w) = Queue.Item e rest ->
  running (preempt (set_pktqueue rest w)) = false ->
  recv_packet preempt (S fuel) timeout w =
    (Raised Shutdown, preempt (set_pktqueue rest w)).
Proof.
  intros Hget Hrun. cbn [recv_packet]. rewrite Hget.
  destruct e as [[dev d] pktinfo]. rewrite Hrun. reflexivity.
Qed.

Lemma recv_popped_skip fuel timeout w dev d pktinfo rest :
  Queue.get timeout (_pktqueue w) = Queue.Item (dev, d, pktinfo) rest ->
  decoder_get d = None ->
  recv_packet preempt (S fuel) timeout w =
    let w1 := preempt (set_pktqueue rest w) in
    if running w1
    then recv_packet preempt fuel timeout
           (log_warn (mkMsg "Received packet with unparseable encapsulation {}" [dlt_val d]) w1)
    else (Raised Shutdown, w1).
Proof.
  intros Hget Hdec. cbn [recv_packet]. rewrite Hget, Hdec.
  cbn zeta. destruct (running _); reflexivity.
Qed.

(** Whatever is returned was built by a decoder of the table from a
    capture record, in a state where the flag was read as true. *)
Lemma recv_returned_inv fuel timeout w rp w' :
  recv_packet preempt fuel timeout w = (Returned rp, w') ->
  exists dev d decoder pktinfo,
    _dlt_to_decoder !! d = Some decoder /\
    rp = mkReceivedPacket (timestamp pktinfo) dev (decoder (raw pktinfo)) /\
    running w' = true.
Proof.
  revert w. induction fuel as [|fuel IH]; intros w; cbn [recv_packet].
  - discriminate.
  - destruct (Queue.get timeout (_pktqueue w)) as [[[dev d] pktinfo] rest| | |].
    + destruct (running (preempt (set_pktqueue rest w))) eqn:Hrun; cbn [negb].
      * destruct (decoder_get d) as [decoder|] eqn:Hdec.
        -- destruct pktinfo as [pi|]; [|discriminate].
           intros [= <- <-]. destruct d as [d|]; [|discriminate].
           exists dev, d, decoder, pi. auto.
        -- apply IH.
      * discriminate.
    + destruct (running (preempt w)); discriminate.
    + discriminate.
    + discriminate.
Qed.

(** The flag as it was read last, by the exception raised. *)
Lemma recv_raised_inv fuel timeout w e w' :
  recv_packet preempt fuel timeout w = (Raised e, w') ->
  (e = NoPackets -> running w' = true) /\
  (e = Shutdown -> running w' = false).
Proof.
  revert w. induction fuel as [|fuel IH]; intros w; cbn [recv_packet].
  - discriminate.
  - destruct (Queue.get timeout (_pktqueue w)) as [[[dev d] pktinfo] rest| | |].
    + destruct (running (preempt (set_pktqueue rest w))) eqn:Hrun; cbn [negb].
      * destruct (decoder_get d) as [decoder|] eqn:Hdec.
        -- destruct pktinfo as [pi|]; intros [= <- <-]; split; discriminate.
        -- apply IH.
      * intros [= <- <-]. split; [discriminate | auto].
    + destruct (running (preempt w)) eqn:Hrun; cbn [negb];
        intros [= <- <-]; split; (discriminate || auto).
    + discriminate.
    + intros [= <- <-]; split; discriminate.
Qed.

Lemma Queue_get_item timeout q e rest :
  Queue.get timeout q = Queue.Item e rest -> q = e :: rest.
Proof.
  unfold Queue.get. destruct timeout as [secs|].
  - destruct (negb (Qle_bool 0 secs)); [discriminate|].
    destruct q; [discriminate|]. intros [= -> ->]. reflexivity.
  - destruct q; [discriminate|]. intros [= -> ->]. reflexivity.
Qed.

(** The loop ends: when nothing else touches the queue, a call makes at
    most one iteration per queued entry and one more. *)
Lemma recv_packet_terminates timeout :
  (forall x, _pktqueue (preempt x) = _pktqueue x) ->
  forall fuel w,
    (length (_pktqueue w) < fuel)%nat ->
    fst (recv_packet preempt fuel timeout w) <> OutOfFuel.
Proof.
  intros Hframe. induction fuel as [|fuel IH]; intros w Hlen; [lia|].
  cbn [recv_packet].
  destruct (Queue.get timeout (_pktqueue w)) as [[[dev d] pktinfo] rest| | |] eqn:Hget.
  - apply Queue_get_item in Hget.
    destruct (running (preempt (set_pktqueue rest w))); cbn [negb]; [|discriminate].
    destruct (decoder_get d).
    + destruct pktinfo; discriminate.
    + apply IH. cbn [log_warn emit _pktqueue]. rewrite Hframe. cbn [set_pktqueue _pktqueue].
      rewrite Hget in Hlen. cbn [length] in Hlen. lia.
  - destruct (running (preempt w)); discriminate.
  - discriminate.
  - discriminate.
Qed.

End ReceiveFacts.

(** ** The operations on the two-interface instance *)

(** The worker of ["en0"] polls once and queues the frame; [recv_packet]
    then returns it decoded as Ethernet, with its timestamp and device. *)
Example capture_then_receive :
  recv_packet id 1 None (dispatch_iter "en0" net2) =
    (Returned (mkReceivedPacket 1 (Some "en0") (mkPacket Ethernet [Byte.x01; Byte.x02])),
     set_pktqueue [] (dispatch_iter "en0" net2)).
Proof. reflexivity. Qed.

(** Nothing queued: without a timeout the caller waits, with one it gets
    [NoPackets], with a negative one [ValueError]. *)
Example receive_nothing :
  fst (recv_packet id 1 None net2) = Blocked /\
  fst (recv_packet id 1 (Some (1 # 20)) net2) = Raised NoPackets /\
  fst (recv_packet id 1 (Some (-1 # 20)) net2) =
    Raised (ValueError (text "'timeout' must be a non-negative number")).
Proof. repeat split. Qed.

(** After [SIGINT] the waiting caller finds the sentinel and gets
    [Shutdown]. *)
Example receive_after_sigint :
  _pktqueue (sigint net2) = [sentinel] /\
  fst (recv_packet id 1 None (sigint net2)) = Raised Shutdown.
Proof. split; reflexivity. Qed.

(** Sending on ["en0"] injects the bytes of the packet on that handle. *)
Example send_on_en0 :
  let '(o, w) := send_packet no_ifnum (DevName "en0") (PyPacket (mkPacket Ethernet [Byte.x07])) net2 in
  o = Returned tt /\
  (injected <$> Dict.get "en0" (_pcaps w)) = Some [[Byte.x07]].
Proof. split; reflexivity. Qed.

(** The trace of a [shutdown] of the running instance. *)
Example shutdown_trace :
  shutdown_events net2 =
    [EvRunning false;
     EvLog DEBUG (text "Joining threads for shutdown");
     EvLog DEBUG (mkMsg "Receiver thread for {} exiting" [VStr "en0"]);
     EvStats "en0";
     EvLog DEBUG (mkMsg "Final device statistics {}: {} received, {} dropped, {} dropped/if"
                        [VStr "en0"; VNat 0; VNat 0; VNat 0]);
     EvJoin "en0";
     EvLog DEBUG (mkMsg "Receiver thread for {} exiting" [VStr "lo0"]);
     EvStats "lo0";
     EvLog DEBUG (mkMsg "Final device statistics {}: {} received, {} dropped, {} dropped/if"
                        [VStr "lo0"; VNat 0; VNat 0; VNat 0]);
     EvJoin "lo0";
     EvLog DEBUG (text "Closing pcap devices");
     EvClose "en0";
     EvClose "lo0";
     EvLog DEBUG (text "Done cleaning up")].
Proof. reflexivity. Qed.

(** C1. When the pop of [recv_packet] times out ([Queue.get] raises
    [Empty]), the call raises [Shutdown] if [LLNetReal.running] is false
    when it is then read, and [NoPackets] if it is true; nothing else comes
    out of a timed-out pop. Conversely, whenever any call ends with
    [NoPackets] the flag was last read true, and whenever it ends with
    [Shutdown] the flag was last read false. *)
Theorem recv_packet_timeout_outcome
  (preempt : World -> World) (fuel : nat) (timeout : option Q) (w : World) :
  Queue.get timeout (_pktqueue w) = Queue.Empty ->
  let w1 := preempt w in
  let result := recv_packet preempt (S fuel) timeout w in
  (running w1 = false -> result = (Raised Shutdown, w1)) /\
  (running w1 = true -> result = (Raised NoPackets, w1)) /\
  (fst result = Raised Shutdown \/ fst result = Raised NoPackets) /\
  (forall n t0 w0 e w', recv_packet preempt n t0 w0 = (Raised e, w') ->
     (e = NoPackets -> running w' = true) /\ (e = Shutdown -> running w' = false)).
Proof.
  intros Hget w1 result. subst result w1.
  rewrite (recv_timed_out preempt fuel timeout w Hget).
  split; [|split; [|split]].
  - intros ->. reflexivity.
  - intros ->. reflexivity.
  - destruct (running (preempt w)); cbn; auto.
  - intros n t0 w0 e w' Hraised. exact (recv_raised_inv preempt n t0 w0 e w' Hraised).
Qed.

Lemma recv_packet_timeout_outcome_witness :
  Queue.get (Some (1 # 20)) (_pktqueue net2) = Queue.Empty /\
  recv_packet id 1 (Some (1 # 20)) net2 = (Raised NoPackets, net2) /\
  recv_packet sigint 1 (Some (1 # 20)) net2 = (Raised Shutdown, sigint net2).
Proof.
  split; [reflexivity|].
  split.
  - apply (recv_packet_timeout_outcome id 0 (Some (1 # 20)) net2 eq_refl).
    reflexivity.
  - apply (recv_packet_timeout_outcome sigint 0 (Some (1 # 20)) net2 eq_refl).
    reflexivity.
Defined.

(** C5. When [recv_packet] pops the sentinel [(None, None, None)] and the
    flag is then read false, it raises [Shutdown]. When the flag is read
    true the sentinel has no decoder, a warning is logged and the loop goes
    on to the next pop. The iteration that popped the sentinel never
    returns a [ReceivedPacket], whatever the flag. *)
Theorem sentinel_never_returned
  (preempt : World -> World) (fuel : nat) (timeout : option Q) (w : World)
  (rest : Queue.t) :
  Queue.get timeout (_pktqueue w) = Queue.Item sentinel rest ->
  let w1 := preempt (set_pktqueue rest w) in
  (running w1 = false ->
     recv_packet preempt (S fuel) timeout w = (Raised Shutdown, w1)) /\
  (running w1 = true ->
     recv_packet preempt (S fuel) timeout w =
       recv_packet preempt fuel timeout
         (log_warn (mkMsg "Received packet with unparseable encapsulation {}" [VNone]) w1)) /\
  (forall rp w', recv_packet preempt 1 timeout w <> (Returned rp, w')).
Proof.
  intros Hget w1. subst w1. repeat split.
  - intros Hrun. eapply recv_popped_stopping; eassumption.
  - intros Hrun.
    rewrite (recv_popped_skip preempt fuel timeout w None None None rest Hget eq_refl).
    cbn zeta. rewrite Hrun. reflexivity.
  - intros rp w'.
    rewrite (recv_popped_skip preempt 0 timeout w None None None rest Hget eq_refl).
    cbn zeta. destruct (running _); cbn; discriminate.
Qed.

Lemma sentinel_never_returned_witness :
  Queue.get None (_pktqueue (sigint net2)) = Queue.Item sentinel [] /\
  recv_packet id 1 None (sigint net2) =
    (Raised Shutdown, set_pktqueue [] (sigint net2)).
Proof.
  split; [reflexivity|].
  apply (sentinel_never_returned id 0 None (sigint net2) [] eq_refl).
  reflexivity.
Defined.





(** C9. Whatever entry [recv_packet] pops, sentinel or captured frame, if
    the flag is read false after the pop the call raises [Shutdown]: the
    entry is not returned, and it has left the queue (which holds the rest,
    unless another thread has put or taken something meanwhile). *)
Theorem popped_entry_dropped_when_stopping
  (preempt : World -> World) (fuel : nat) (timeout : option Q) (w : World)
  (e : Entry) (rest : Queue.t) :
  Queue.get timeout (_pktqueue w) = Queue.Item e rest ->
  running (preempt (set_pktqueue rest w)) = false ->
  recv_packet preempt (S fuel) timeout w =
    (Raised Shutdown, preempt (set_pktqueue rest w)) /\
  ((forall x, _pktqueue (preempt x) = _pktqueue x) ->
   _pktqueue (snd (recv_packet preempt (S fuel) timeout w)) = rest).
Proof.
  intros Hget Hrun.
  rewrite (recv_popped_stopping preempt fuel timeout w e rest Hget Hrun).
  split; [reflexivity|]. intros Hframe. cbn [snd]. rewrite Hframe. reflexivity.
Qed.

Lemma popped_entry_dropped_when_stopping_witness :
  Queue.get None (_pktqueue net2_one) = Queue.Item (captured "en0" DLT_EN10MB frame1) [] /\
  running (sigint (set_pktqueue [] net2_one)) = false /\
  recv_packet sigint 1 None net2_one = (Raised Shutdown, sigint (set_pktqueue [] net2_one)) /\
  fst (recv_packet id 1 None net2_one) =
    Returned (mkReceivedPacket 1 (Some "en0") (mkPacket Ethernet [Byte.x01; Byte.x02])).
Proof.
  split; [reflexivity|]. split; [reflexivity|]. split.
  - apply (popped_entry_dropped_when_stopping sigint 0 None net2_one
             (captured "en0" DLT_EN10MB frame1) [] eq_refl eq_refl).
  - reflexivity.
Defined.

(** ** Joining and closing *)

Lemma dispatch_exit_events devname w :
  dispatch_exit devname w = emits (exit_events devname (stats_of devname w)) w.
Proof.
  unfold dispatch_exit, stats_of, log_debug, emit, emits, exit_events. cbn.
  repeat rewrite <- app_assoc. reflexivity.
Qed.

(** A worker that finds the flag false at its loop test logs, reads the
    statistics, logs them and returns. *)
Lemma low_level_dispatch_stopped fuel devname w :
  running w = false ->
  low_level_dispatch (S fuel) devname w =
    (Returned tt, emits (exit_events devname (stats_of devname w)) w).
Proof.
  intros Hrun. cbn [low_level_dispatch]. rewrite Hrun, dispatch_exit_events. reflexivity.
Qed.

(** While the flag is true a worker left alone does not return. *)
Lemma low_level_dispatch_running fuel : forall devname w,
  running w = true ->
  fst (low_level_dispatch fuel devname w) = OutOfFuel.
Proof.
  induction fuel as [|fuel IH]; intros devname w Hrun; cbn [low_level_dispatch].
  - reflexivity.
  - rewrite Hrun. apply IH.
    unfold dispatch_iter.
    destruct (Dict.get devname (_pcaps w)) as [pcapdev|]; [|exact Hrun].
    destruct (Pdev_recv_packet pcapdev) as [[pi|] pcapdev']; exact Hrun.
Qed.

Lemma Thread_join_stopped fuel t w :
  running w = false ->
  Thread_join (S fuel) t w = (Returned (finished t), emits (join_events (_pcaps w) t) w).
Proof.
  intros Hrun. unfold Thread_join, join_events, finished.
  destruct t as [devname [|]]; cbn [th_done th_dev].
  - reflexivity.
  - unfold bind. cbn [low_level_dispatch]. rewrite Hrun.
    unfold act, ret, dispatch_exit, stats_of, log_debug, emit, emits, exit_events.
    cbn. repeat rewrite <- app_assoc. reflexivity.
Qed.

Lemma join_each_stopped fuel todo : forall joined w,
  running w = false ->
  _threads w = joined ++ todo ->
  join_each (S fuel) joined todo w =
    (Returned tt,
     set_threads (joined ++ map finished todo)
                 (emits (flat_map (join_events (_pcaps w)) todo) w)).
Proof.
  induction todo as [|t todo IH]; intros joined w Hrun Hthreads.
  - cbn. unfold ret. f_equal. destruct w; cbn in *. subst.
    unfold set_threads, emits. cbn. rewrite !app_nil_r. reflexivity.
  - cbn [join_each]. unfold bind at 1.
    rewrite (Thread_join_stopped fuel t w Hrun).
    unfold bind at 1. unfold act at 1.
    rewrite IH.
    + f_equal. destruct w; cbn in *. unfold set_threads, emits. cbn.
      rewrite <- !app_assoc. reflexivity.
    + destruct w; assumption.
    + destruct w; cbn in *. rewrite <- app_assoc. reflexivity.
Qed.

Lemma close_each_all todo : forall seen w,
  _pcaps w = seen ++ todo ->
  close_each seen todo w =
    set_pcaps (seen ++ map close_item todo) (emits (map EvClose (Dict.keys todo)) w).
Proof.
  induction todo as [|[devname pdev] todo IH]; intros seen w Hpcaps.
  - cbn. destruct w; cbn in *. subst. unfold set_pcaps, emits. cbn.
    rewrite !app_nil_r. reflexivity.
  - cbn [close_each]. rewrite IH.
    + destruct w; cbn in *. unfold set_pcaps, emits, emit, close_item. cbn.
      rewrite <- !app_assoc. reflexivity.
    + destruct w; cbn. rewrite <- app_assoc. reflexivity.
Qed.

(** A [shutdown] that finds the flag true returns, in the state [stopped]. *)
Lemma shutdown_running fuel w :
  running w = true ->
  shutdown (S fuel) w = (Returned tt, stopped w).
Proof.
  intros Hrun. unfold shutdown. rewrite Hrun. cbn [negb].
  unfold bind at 1. unfold act at 1.
  unfold bind at 1. unfold act at 1.
  unfold bind at 1.
  rewrite join_each_stopped; [| destruct w; reflexivity | destruct w; reflexivity].
  unfold bind at 1. unfold act at 1.
  unfold bind at 1. unfold act at 1.
  rewrite close_each_all; [| destruct w; reflexivity].
  unfold act. f_equal.
  destruct w; cbn in *.
  unfold stopped, shutdown_events, set_pcaps, set_threads, emits, log_debug, emit. cbn.
  rewrite <- !app_assoc. reflexivity.
Qed.

(** A [shutdown] that finds the flag false returns at once. *)
Lemma shutdown_stopped fuel w :
  running w = false ->
  shutdown fuel w = (Returned tt, w).
Proof.
  intros Hrun. unfold shutdown. rewrite Hrun. reflexivity.
Qed.

Lemma join_events_no_close pcaps t :
  Forall (λ ev, is_close ev = false) (join_events pcaps t).
Proof.
  unfold join_events, exit_events.
  destruct (th_done t); repeat constructor.
Qed.

Lemma joins_no_close pcaps ts :
  Forall (λ ev, is_close ev = false) (flat_map (join_events pcaps) ts).
Proof.
  induction ts as [|t ts IH]; cbn [flat_map].
  - constructor.
  - apply Forall_app. split; [apply join_events_no_close | exact IH].
Qed.

Lemma joins_filter_join pcaps ts :
  List.filter is_join (flat_map (join_events pcaps) ts) = map (λ t, EvJoin (th_dev t)) ts.
Proof.
  induction ts as [|t ts IH]; cbn [flat_map map].
  - reflexivity.
  - rewrite List.filter_app, IH. unfold join_events, exit_events.
    destruct (th_done t); reflexivity.
Qed.



Lemma closes_no_join (keys : list string) :
  Forall (λ ev, is_join ev = false) (map EvClose keys).
Proof.
  induction keys as [|k keys IH]; cbn; constructor; auto.
Qed.

(** An element with property [P] of [l1 ++ l2] lies in [l1] when [l2]
    has none, and in [l2] when [l1] has none. *)
Lemma lookup_app_only_left {A} (P : A -> bool) (l1 l2 : list A) (i : nat) (x : A) :
  Forall (λ y, P y = false) l2 ->
  (l1 ++ l2) !! i = Some x -> P x = true -> (i < length l1)%nat.
Proof.
  intros Hnone Hlook HP.
  apply lookup_app_Some in Hlook as [Hl | [Hge Hr]].
  - eapply lookup_lt_Some; eauto.
  - rewrite Forall_forall in Hnone.
    assert (Hin : x ∈ l2) by (eapply list_elem_of_lookup_2; eauto).
    specialize (Hnone x Hin). congruence.
Qed.

Lemma lookup_app_only_right {A} (P : A -> bool) (l1 l2 : list A) (i : nat) (x : A) :
  Forall (λ y, P y = false) l1 ->
  (l1 ++ l2) !! i = Some x -> P x = true -> (length l1 <= i)%nat.
Proof.
  intros Hnone Hlook HP.
  apply lookup_app_Some in Hlook as [Hl | [Hge Hr]].
  - rewrite Forall_forall in Hnone.
    assert (Hin : x ∈ l1) by (eapply list_elem_of_lookup_2; eauto).
    specialize (Hnone x Hin). congruence.
  - exact Hge.
Qed.

(** ** The worker closes nothing *)

Lemma Dict_set_close_counts k (p p' : Pdev) (d : Dict.t Pdev) :
  Dict.get k d = Some p ->
  closed p' = closed p ->
  map (λ item, closed (snd item)) (Dict.set k p' d) = map (λ item, closed (snd item)) d.
Proof.
  intros Hget Hclosed. induction d as [|[k' v] d IH]; cbn in *.
  - discriminate.
  - destruct (String.eqb k k').
    + injection Hget as ->. cbn. rewrite Hclosed. reflexivity.
    + cbn. rewrite IH; auto.
Qed.

Lemma Pdev_recv_packet_closed p :
  closed (snd (Pdev_recv_packet p)) = closed p.
Proof.
  unfold Pdev_recv_packet. destruct (pending p) as [|[pi|] rest]; reflexivity.
Qed.

Lemma dispatch_iter_no_close devname w :
  running (dispatch_iter devname w) = running w /\
  close_counts (dispatch_iter devname w) = close_counts w /\
  List.filter is_close (trace (dispatch_iter devname w)) = List.filter is_close (trace w).
Proof.
  unfold dispatch_iter.
  destruct (Dict.get devname (_pcaps w)) as [pcapdev|] eqn:Hget; [|auto].
  pose proof (Pdev_recv_packet_closed pcapdev) as Hclosed.
  destruct (Pdev_recv_packet pcapdev) as [pktinfo pcapdev']. cbn [snd] in Hclosed.
  assert (Hcounts : map (λ item, closed (snd item)) (Dict.set devname pcapdev' (_pcaps w))
                    = map (λ item, closed (snd item)) (_pcaps w))
    by (eapply Dict_set_close_counts; eauto).
  destruct pktinfo as [pi|]; unfold close_counts; cbn;
    rewrite Hcounts, List.filter_app; cbn; rewrite app_nil_r; auto.
Qed.

Lemma dispatch_exit_no_close devname w :
  close_counts (dispatch_exit devname w) = close_counts w /\
  List.filter is_close (trace (dispatch_exit devname w)) = List.filter is_close (trace w).
Proof.
  unfold dispatch_exit, close_counts. cbn. split; [reflexivity|].
  rewrite !List.filter_app. cbn. rewrite !app_nil_r. reflexivity.
Qed.

Lemma low_level_dispatch_no_close fuel : forall devname w o w',
  low_level_dispatch fuel devname w = (o, w') ->
  close_counts w' = close_counts w /\
  List.filter is_close (trace w') = List.filter is_close (trace w).
Proof.
  induction fuel as [|fuel IH]; intros devname w o w'; cbn [low_level_dispatch].
  - intros [= _ <-]. auto.
  - destruct (running w).
    + intros Hrun. apply IH in Hrun as [Hc Ht].
      destruct (dispatch_iter_no_close devname w) as (_ & Hc' & Ht').
      split; congruence.
    + intros [= _ <-]. apply dispatch_exit_no_close.
Qed.

(** ** [shutdown] *)





(** C8. A [shutdown] that finds the flag true returns, and the events it
    leaves are, in this order: the write of false to the flag, the joins
    of all worker threads (with what the workers log on their way out),
    then the closes of all handles. Every close comes after every join and
    every join after the write of the flag. A worker, however long it runs,
    closes no handle: it leaves no close event and every close counter as it
    was. *)
Theorem shutdown_order (fuel : nat) (w : World) :
  running w = true ->
  exists w1 joins,
    shutdown (S fuel) w = (Returned tt, w1) /\
    trace w1 = trace w ++ shutdown_events w /\
    shutdown_events w =
      [EvRunning false; EvLog DEBUG (text "Joining threads for shutdown")]
      ++ joins
      ++ [EvLog DEBUG (text "Closing pcap devices")]
      ++ map EvClose (Dict.keys (_pcaps w))
      ++ [EvLog DEBUG (text "Done cleaning up")] /\
    List.filter is_join joins = map (λ t, EvJoin (th_dev t)) (_threads w) /\
    Forall (λ ev, is_close ev = false) joins /\
    (forall i j devname devname',
       shutdown_events w !! i = Some (EvClose devname) ->
       shutdown_events w !! j = Some (EvJoin devname') ->
       (0 < j < i)%nat) /\
    (forall n devname w0 o w',
       low_level_dispatch n devname w0 = (o, w') ->
       close_counts w' = close_counts w0 /\
       List.filter is_close (trace w') = List.filter is_close (trace w0)) /\
    (forall n devname w0,
       running w0 = false ->
       low_level_dispatch (S n) devname w0 =
         (Returned tt, emits (exit_events devname (stats_of devname w0)) w0)).
Proof.
  intros Hrun.
  exists (stopped w), (flat_map (join_events (_pcaps w)) (_threads w)).
  split; [apply shutdown_running; exact Hrun|].
  split; [reflexivity|].
  split; [reflexivity|].
  split; [apply joins_filter_join|].
  split; [apply joins_no_close|].
  split;
    [|split; [intros n devname w0 o w'; apply low_level_dispatch_no_close
             |intros n devname w0; apply low_level_dispatch_stopped]].
  intros i j devname devname' Hclose Hjoin.
  set (head := [EvRunning false; EvLog DEBUG (text "Joining threads for shutdown")]).
  set (joins := flat_map (join_events (_pcaps w)) (_threads w)).
  set (closing := [EvLog DEBUG (text "Closing pcap devices")]).
  set (closes := map EvClose (Dict.keys (_pcaps w))).
  set (last := [EvLog DEBUG (text "Done cleaning up")]).
  assert (Hshape : shutdown_events w = head ++ joins ++ closing ++ closes ++ last)
    by reflexivity.
  assert (Hhead : (2 <= j)%nat).
  { rewrite Hshape in Hjoin.
    apply (lookup_app_only_right is_join head (joins ++ closing ++ closes ++ last) j
             (EvJoin devname')); auto.
    subst head. repeat constructor. }
  assert (Hj : (j < length (head ++ joins))%nat).
  { rewrite Hshape, app_assoc in Hjoin.
    apply (lookup_app_only_left is_join (head ++ joins) (closing ++ closes ++ last) j
             (EvJoin devname')); auto.
    subst closing last. apply Forall_app. split; [repeat constructor|].
    apply Forall_app. split; [apply closes_no_join | repeat constructor]. }
  assert (Hi : (length (head ++ joins) <= i)%nat).
  { rewrite Hshape, app_assoc in Hclose.
    apply (lookup_app_only_right is_close (head ++ joins) (closing ++ closes ++ last) i
             (EvClose devname)); auto.
    apply Forall_app. split; [subst head; repeat constructor | apply joins_no_close]. }
  lia.
Qed.

Lemma shutdown_order_witness :
  running net2 = true /\
  exists w1,
    shutdown 1 net2 = (Returned tt, w1) /\
    List.filter (λ ev, is_join ev || is_close ev) (trace w1) =
      [EvJoin "en0"; EvJoin "lo0"; EvClose "en0"; EvClose "lo0"].
Proof.
  split; [reflexivity|].
  destruct (shutdown_order 0 net2 eq_refl) as (w1 & joins & H1 & Htrace & _).
  exists w1. split; [exact H1|]. rewrite Htrace. reflexivity.
Defined.

(** C10. When the delivery of a signal has left the flag false, a call of
    [shutdown] returns at once and changes nothing: no thread is joined, no
    handle is closed, by this call or by any later one. *)
Theorem shutdown_after_signal_is_noop (signum : Signal) (w w1 : World) (fuel : nat) :
  deliver signum w = Some w1 ->
  running w1 = false ->
  shutdown fuel w1 = (Returned tt, w1) /\
  (forall n, Nat.iter n (λ w', snd (shutdown fuel w')) w1 = w1) /\
  _threads w1 = _threads w /\
  close_counts w1 = close_counts w /\
  List.filter is_join (trace w1) = List.filter is_join (trace w) /\
  List.filter is_close (trace w1) = List.filter is_close (trace w).
Proof.
  intros Hdeliver Hrun.
  split; [apply shutdown_stopped; exact Hrun|].
  split.
  { induction n as [|n IH]; [reflexivity|].
    change (snd (shutdown fuel (Nat.iter n (λ w', snd (shutdown fuel w')) w1)) = w1).
    rewrite IH, (shutdown_stopped fuel w1 Hrun). reflexivity. }
  unfold deliver in Hdeliver.
  destruct (existsb (Signal_eqb signum) (handled w)); [|discriminate].
  injection Hdeliver as <-.
  unfold _sig_handler, close_counts.
  destruct (Signal_eqb signum SIGINT);
    [destruct (Nat.eqb (Queue.qsize (_pktqueue (set_running false (log_debug (text "Got SIGINT.") w)))) 0)|];
    unfold pktqueue_put, set_pktqueue, set_running, log_debug, emit;
    cbn [running _pktqueue _threads _pcaps handled trace];
    rewrite !List.filter_app; cbn; rewrite !app_nil_r; auto.
Qed.

Lemma shutdown_after_signal_is_noop_witness :
  deliver SIGINT net2 = Some (sigint net2) /\
  running (sigint net2) = false /\
  shutdown 1 (sigint net2) = (Returned tt, sigint net2) /\
  close_counts (sigint net2) = [0; 0]%nat.
Proof.
  split; [reflexivity|]. split; [reflexivity|]. split.
  - apply (shutdown_after_signal_is_noop SIGINT net2 (sigint net2) 1 eq_refl eq_refl).
  - reflexivity.
Defined.

(** ** Signals *)

(** C2, as the code has it. Every signal [__init__] installs the handler
    for is delivered to [_sig_handler]. For [SIGINT] the handler writes
    false to the flag and, when the queue holds nothing, puts the sentinel.
    For the others ([SIGTERM], [SIGHUP], [SIGUSR1], [SIGUSR2]) it logs the
    debug line and leaves flag and queue as they are. *)
Theorem only_sigint_stops (signum : Signal) (w : World) :
  In signum consumed_signals ->
  handled w = consumed_signals ->
  deliver signum w = Some (_sig_handler signum w) /\
  (signum = SIGINT ->
     running (_sig_handler signum w) = false /\
     _pktqueue (_sig_handler signum w) =
       (if Nat.eqb (Queue.qsize (_pktqueue w)) 0 then [sentinel] else _pktqueue w)) /\
  (signum <> SIGINT ->
     _sig_handler signum w = log_debug (text "Got SIGINT.") w /\
     running (_sig_handler signum w) = running w /\
     _pktqueue (_sig_handler signum w) = _pktqueue w).
Proof.
  intros Hin Hhandled. split; [|split].
  - unfold deliver. rewrite Hhandled.
    cbn in Hin. destruct Hin as [<-|[<-|[<-|[<-|[<-|[]]]]]]; reflexivity.
  - intros ->. unfold _sig_handler. cbn [Signal_eqb].
    split.
    + destruct (Nat.eqb _ 0); reflexivity.
    + cbn [set_running log_debug emit _pktqueue].
      destruct (_pktqueue w) as [|e q] eqn:Hq; cbn; rewrite Hq; reflexivity.
  - intros Hne. unfold _sig_handler.
    destruct signum; try contradiction; cbn [Signal_eqb]; auto.
Qed.

Lemma only_sigint_stops_witness :
  In SIGINT consumed_signals /\
  handled net2 = consumed_signals /\
  deliver SIGINT net2 = Some (sigint net2) /\
  running (sigint net2) = false /\
  _pktqueue (sigint net2) = [sentinel].
Proof.
  split; [cbn; auto|]. split; [reflexivity|].
  destruct (only_sigint_stops SIGINT net2 (or_introl eq_refl) eq_refl) as (Hd & Hint & _).
  split; [exact Hd|]. apply Hint. reflexivity.
Defined.

(** C2 fails for [SIGTERM]: the handler is installed for it, and on its
    delivery to [net2], whose queue is empty, the flag stays true and no
    sentinel is put. *)
Lemma sigterm_leaves_flag_true :
  In SIGTERM consumed_signals /\
  running net2 = true /\
  Queue.qsize (_pktqueue net2) = 0%nat /\
  exists w',
    deliver SIGTERM net2 = Some w' /\
    running w' <> false /\
    _pktqueue w' = [].
Proof.
  split; [cbn; auto|]. split; [reflexivity|]. split; [reflexivity|].
  exists (log_debug (text "Got SIGINT.") net2).
  split; [reflexivity|]. split; [discriminate | reflexivity].
Qed.

(** ** [send_packet] *)

Section SendFacts.

Variable _lookup_devname : Z -> Exn + string.

Lemma send_packet_unknown_device dev packet w devname :
  resolve _lookup_devname dev = inr devname ->
  Dict.get devname (_pcaps w) = None ->
  send_packet _lookup_devname dev packet w =
    (Raised (SwitchyException
               (mkMsg "Unrecognized device name for packet send: {}" [VStr devname])), w).
Proof.
  intros Hres Hget. unfold send_packet. rewrite Hres, Hget. reflexivity.
Qed.

Lemma send_packet_not_a_packet dev packet w devname pdev :
  resolve _lookup_devname dev = inr devname ->
  Dict.get devname (_pcaps w) = Some pdev ->
  is_packet packet = false ->
  send_packet _lookup_devname dev packet w =
    (Raised (SwitchyException
               (match packet with
                | PyOther ty =>
                    mkMsg "Object given to send_packet is not a Packet (it is: {})" [VType ty]
                | _ => text "No packet object given to send_packet"
                end)), w).
Proof.
  intros Hres Hget Hpkt. unfold send_packet. rewrite Hres, Hget.
  destruct packet; [reflexivity | discriminate | reflexivity].
Qed.

End SendFacts.

(** C3, as the code has it. With [packet] equal to [None] or not a
    [Packet], what [send_packet] raises depends on the device. When the
    device reference resolves to a name that has a handle in [_pcaps], it
    raises the [SwitchyException] about the packet. When the name has no
    handle it raises the [SwitchyException] about the unrecognized device
    name, and it does so whatever the packet is, a [Packet] included. In
    all these cases the state is unchanged. *)
Theorem send_packet_invalid_packet
  (_lookup_devname : Z -> Exn + string) (dev : DevRef) (w : World) (devname : string) :
  resolve _lookup_devname dev = inr devname ->
  (Dict.get devname (_pcaps w) = None ->
     forall packet,
       send_packet _lookup_devname dev packet w =
         (Raised (SwitchyException
                    (mkMsg "Unrecognized device name for packet send: {}" [VStr devname])), w)) /\
  (forall pdev, Dict.get devname (_pcaps w) = Some pdev ->
     send_packet _lookup_devname dev PyNone w =
       (Raised (SwitchyException (text "No packet object given to send_packet")), w) /\
     forall ty,
       send_packet _lookup_devname dev (PyOther ty) w =
         (Raised (SwitchyException
                    (mkMsg "Object given to send_packet is not a Packet (it is: {})"
                           [VType ty])), w)).
Proof.
  intros Hres. split.
  - intros Hget packet. eapply send_packet_unknown_device; eauto.
  - intros pdev Hget. split.
    + rewrite (send_packet_not_a_packet _lookup_devname dev PyNone w devname pdev Hres Hget eq_refl).
      reflexivity.
    + intros ty.
      rewrite (send_packet_not_a_packet _lookup_devname dev (PyOther ty) w devname pdev
                 Hres Hget eq_refl).
      reflexivity.
Qed.

Lemma send_packet_invalid_packet_witness :
  resolve no_ifnum (DevName "en0") = inr "en0" /\
  Dict.get "en0" (_pcaps net2) = Some (open_dev "en0") /\
  send_packet no_ifnum (DevName "en0") PyNone net2 =
    (Raised (SwitchyException (text "No packet object given to send_packet")), net2) /\
  send_packet no_ifnum (DevName "en0") (PyOther "<class 'bytes'>") net2 =
    (Raised (SwitchyException
               (mkMsg "Object given to send_packet is not a Packet (it is: {})"
                      [VType "<class 'bytes'>"])), net2).
Proof.
  split; [reflexivity|]. split; [reflexivity|].
  destruct (send_packet_invalid_packet no_ifnum (DevName "en0") net2 "en0" eq_refl)
    as (_ & Hknown).
  destruct (Hknown (open_dev "en0") eq_refl) as (Hnone & Hother).
  split; [exact Hnone | apply Hother].
Defined.

(** C3 fails on a device without a handle: on [net2],
    [send_packet("baddev", None)] raises the exception about the device
    name, the very one it raises for ["baddev"] with a [Packet], and not
    the one [send_packet("en0", None)] raises: the validity of the device
    changes the outcome. *)
Lemma invalid_packet_on_unknown_device :
  send_packet no_ifnum (DevName "baddev") PyNone net2 =
    (Raised (SwitchyException
               (mkMsg "Unrecognized device name for packet send: {}" [VStr "baddev"])), net2) /\
  send_packet no_ifnum (DevName "en0") PyNone net2 =
    (Raised (SwitchyException (text "No packet object given to send_packet")), net2) /\
  send_packet no_ifnum (DevName "baddev") PyNone net2 <>
    send_packet no_ifnum (DevName "en0") PyNone net2 /\
  send_packet no_ifnum (DevName "baddev") PyNone net2 =
    send_packet no_ifnum (DevName "baddev") (PyPacket (mkPacket Ethernet [])) net2.
Proof.
  split; [reflexivity|]. split; [reflexivity|]. split; [|reflexivity].
  intros Heq.
  assert (Hfst : fst (send_packet no_ifnum (DevName "baddev") PyNone net2) =
                 fst (send_packet no_ifnum (DevName "en0") PyNone net2))
    by (rewrite Heq; reflexivity).
  cbn in Hfst. discriminate.
Qed.

(** C4, as the code has it. A call that fails because the device name has
    no handle and a call that fails because the packet is [None] or not a
    [Packet] raise the same class, [SwitchyException]; the two differ in
    the format string of their message only. *)
Theorem send_failures_share_class
  (_lookup_devname : Z -> Exn + string)
  (dev1 dev2 : DevRef) (packet1 packet2 : PyObj) (w1 w2 : World)
  (devname1 devname2 : string) (pdev : Pdev) :
  resolve _lookup_devname dev1 = inr devname1 ->
  Dict.get devname1 (_pcaps w1) = None ->
  resolve _lookup_devname dev2 = inr devname2 ->
  Dict.get devname2 (_pcaps w2) = Some pdev ->
  is_packet packet2 = false ->
  exists e1 e2,
    send_packet _lookup_devname dev1 packet1 w1 = (Raised e1, w1) /\
    send_packet _lookup_devname dev2 packet2 w2 = (Raised e2, w2) /\
    exn_class e1 = cSwitchyException /\
    exn_class e2 = cSwitchyException /\
    (fmt <$> exn_msg e1) <> (fmt <$> exn_msg e2).
Proof.
  intros Hres1 Hget1 Hres2 Hget2 Hpkt.
  eexists. eexists. split.
  { eapply send_packet_unknown_device; eauto. }
  split.
  { eapply send_packet_not_a_packet; eauto. }
  split; [reflexivity|]. split; [reflexivity|].
  destruct packet2; cbn; discriminate.
Qed.

Lemma send_failures_share_class_witness :
  resolve no_ifnum (DevName "baddev") = inr "baddev" /\
  Dict.get "baddev" (_pcaps net2) = None /\
  resolve no_ifnum (DevName "en0") = inr "en0" /\
  Dict.get "en0" (_pcaps net2) = Some (open_dev "en0") /\
  is_packet (PyOther "<class 'bytes'>") = false /\
  exists e1 e2,
    send_packet no_ifnum (DevName "baddev") (PyPacket (mkPacket Ethernet [])) net2
      = (Raised e1, net2) /\
    send_packet no_ifnum (DevName "en0") (PyOther "<class 'bytes'>") net2
      = (Raised e2, net2) /\
    exn_class e1 = exn_class e2.
Proof.
  split; [reflexivity|]. split; [reflexivity|]. split; [reflexivity|].
  split; [reflexivity|]. split; [reflexivity|].
  destruct (send_failures_share_class no_ifnum (DevName "baddev") (DevName "en0")
              (PyPacket (mkPacket Ethernet [])) (PyOther "<class 'bytes'>") net2 net2
              "baddev" "en0" (open_dev "en0") eq_refl eq_refl eq_refl eq_refl eq_refl)
    as (e1 & e2 & H1 & H2 & Hc1 & Hc2 & _).
  exists e1, e2. split; [exact H1|]. split; [exact H2|]. congruence.
Defined.

(** C4 fails as stated: on [net2], [send_packet("baddev", Packet())] and
    [send_packet("en0", None)] both fail, for the two different reasons,
    with exceptions of one and the same class. *)
Lemma send_failures_same_kind :
  exists e1 e2,
    send_packet no_ifnum (DevName "baddev") (PyPacket (mkPacket Ethernet [])) net2
      = (Raised e1, net2) /\
    send_packet no_ifnum (DevName "en0") PyNone net2 = (Raised e2, net2) /\
    is_unknown_device_error e1 = true /\
    is_invalid_packet_error e2 = true /\
    exn_class e1 = exn_class e2.
Proof.
  eexists. eexists. split; [reflexivity|]. split; [reflexivity|].
  split; [reflexivity|]. split; reflexivity.
Qed.

(** * Further properties *)

(** ** The dictionary of handles *)

Lemma Dict_get_set_eq {V} k (v : V) d :
  Dict.get k (Dict.set k v d) = Some v.
Proof.
  induction d as [|[k' v'] d IH]; cbn.
  - rewrite String.eqb_refl. reflexivity.
  - destruct (String.eqb k k') eqn:Hk; cbn; rewrite Hk; [reflexivity | exact IH].
Qed.

Lemma Dict_get_set_ne {V} k k' (v : V) d :
  k <> k' -> Dict.get k' (Dict.set k v d) = Dict.get k' d.
Proof.
  intros Hne. induction d as [|[k0 v0] d IH]; cbn.
  - destruct (String.eqb k' k) eqn:Hk; [|reflexivity].
    apply String.eqb_eq in Hk. congruence.
  - destruct (String.eqb k k0) eqn:Hk; cbn.
    + apply String.eqb_eq in Hk. subst k0.
      destruct (String.eqb k' k) eqn:Hk'; [|reflexivity].
      apply String.eqb_eq in Hk'. congruence.
    + rewrite IH. reflexivity.
Qed.

Lemma Dict_get_None {V} k (d : Dict.t V) :
  Dict.get k d = None <-> k ∉ Dict.keys d.
Proof.
  induction d as [|[k' v'] d IH]; cbn.
  - split; [intros _; apply not_elem_of_nil | reflexivity].
  - rewrite not_elem_of_cons. destruct (String.eqb k k') eqn:Hk.
    + apply String.eqb_eq in Hk. split; [discriminate | intros [Hne _]; congruence].
    + apply String.eqb_neq in Hk. rewrite IH. tauto.
Qed.

Lemma Dict_keys_set_in {V} k (v : V) d :
  k ∈ Dict.keys d -> Dict.keys (Dict.set k v d) = Dict.keys d.
Proof.
  induction d as [|[k' v'] d IH]; cbn.
  - intros Hin. apply elem_of_nil in Hin. contradiction.
  - intros Hin. destruct (String.eqb k k') eqn:Hk; cbn; [reflexivity|].
    apply String.eqb_neq in Hk. apply elem_of_cons in Hin as [?|Hin]; [congruence|].
    unfold Dict.keys in IH. rewrite IH; auto.
Qed.

Lemma Dict_keys_set_new {V} k (v : V) d :
  k ∉ Dict.keys d -> Dict.keys (Dict.set k v d) = Dict.keys d ++ [k].
Proof.
  induction d as [|[k' v'] d IH]; cbn.
  - reflexivity.
  - intros Hnin. apply not_elem_of_cons in Hnin as [Hne Hnin].
    destruct (String.eqb k k') eqn:Hk; cbn.
    + apply String.eqb_eq in Hk. congruence.
    + unfold Dict.keys in IH. rewrite IH; auto.
Qed.

Lemma Dict_get_Some_key {V} k (v : V) d :
  Dict.get k d = Some v -> k ∈ Dict.keys d.
Proof.
  intros Hget. destruct (decide (k ∈ Dict.keys d)) as [|Hnin]; [assumption|].
  apply Dict_get_None in Hnin. congruence.
Qed.

Lemma make_pcaps_from (PcapLiveDevice : string -> Pdev) (devs : list string) :
  forall d0 : Dict.t Pdev,
    NoDup (Dict.keys d0) ->
    let d := fold_left (λ pcaps dev, Dict.set dev (PcapLiveDevice dev) pcaps) devs d0 in
    NoDup (Dict.keys d) /\
    forall k,
      (k ∈ Dict.keys d <-> k ∈ Dict.keys d0 \/ k ∈ devs) /\
      Dict.get k d = if decide (k ∈ devs) then Some (PcapLiveDevice k) else Dict.get k d0.
Proof.
  induction devs as [|dev devs IH]; intros d0 Hnd; cbn [fold_left].
  - split; [assumption|]. intros k. split.
    + split; [auto | intros [?|Hin]; [assumption | apply elem_of_nil in Hin; contradiction]].
    + destruct (decide (k ∈ [])) as [Hin|]; [apply elem_of_nil in Hin; contradiction|reflexivity].
  - assert (Hnd' : NoDup (Dict.keys (Dict.set dev (PcapLiveDevice dev) d0))).
    { destruct (decide (dev ∈ Dict.keys d0)) as [Hin|Hnin].
      - rewrite Dict_keys_set_in; assumption.
      - rewrite Dict_keys_set_new by assumption.
        apply NoDup_app. split; [assumption|]. split; [|apply NoDup_singleton].
        intros x Hx Hx'. apply list_elem_of_singleton in Hx'. congruence. }
    destruct (IH _ Hnd') as [Hnd'' Hall]. split; [exact Hnd''|].
    intros k. destruct (Hall k) as [Hkeys Hget]. split.
    + rewrite Hkeys, elem_of_cons.
      destruct (decide (dev ∈ Dict.keys d0)) as [Hin|Hnin].
      * rewrite Dict_keys_set_in by assumption.
        split; [tauto | intros [?|[->|?]]; auto].
      * rewrite Dict_keys_set_new, elem_of_app, list_elem_of_singleton by assumption.
        tauto.
    + rewrite Hget. destruct (decide (k ∈ devs)) as [Hin|Hnin].
      * rewrite decide_True by (apply elem_of_cons; auto). reflexivity.
      * destruct (decide (k = dev)) as [->|Hne].
        -- rewrite decide_True by (apply elem_of_cons; auto). apply Dict_get_set_eq.
        -- rewrite decide_False by (rewrite elem_of_cons; tauto).
           apply Dict_get_set_ne. congruence.
Qed.

Lemma make_pcaps_get (PcapLiveDevice : string -> Pdev) (devs : list string) (k : string) :
  Dict.get k (make_pcaps PcapLiveDevice devs) =
    (if decide (k ∈ devs) then Some (PcapLiveDevice k) else None) /\
  (k ∈ Dict.keys (make_pcaps PcapLiveDevice devs) <-> k ∈ devs) /\
  NoDup (Dict.keys (make_pcaps PcapLiveDevice devs)).
Proof.
  destruct (make_pcaps_from PcapLiveDevice devs [] (NoDup_nil_2 (A:=string))) as [Hnd Hall].
  destruct (Hall k) as [Hkeys Hget]. unfold make_pcaps.
  split; [exact Hget|]. split; [|exact Hnd].
  rewrite Hkeys. cbn. split; [intros [Hin|?]; [apply elem_of_nil in Hin; contradiction|assumption] | auto].
Qed.

(** X1. [__make_pcaps] leaves exactly one handle per requested name: a
    name of the list finds the handle opened for it, any other name finds
    nothing, and no name is held twice even when the list repeats it. *)
Theorem make_pcaps_lookup (PcapLiveDevice : string -> Pdev) (devs : list string) (k : string) :
  Dict.get k (make_pcaps PcapLiveDevice devs) =
    (if decide (k ∈ devs) then Some (PcapLiveDevice k) else None) /\
  (k ∈ Dict.keys (make_pcaps PcapLiveDevice devs) <-> k ∈ devs) /\
  NoDup (Dict.keys (make_pcaps PcapLiveDevice devs)).
Proof. exact (make_pcaps_get PcapLiveDevice devs k). Qed.

(** ** Whole runs of the receive loop, when nothing interferes *)

Lemma World_eta w :
  w = mkWorld (running w) (_pktqueue w) (_threads w) (_pcaps w) (handled w) (trace w).
Proof. destruct w; reflexivity. Qed.

(** What one call consumes and leaves: a run of skipped entries, each
    without decoder and each warned about, then at most one more entry (the
    one returned, or dropped with an exception); nothing but queue and trace
    changes. *)
Lemma recv_packet_run fuel timeout : forall w o w',
  recv_packet id fuel timeout w = (o, w') ->
  exists skipped last,
    _pktqueue w = skipped ++ last ++ _pktqueue w' /\
    Forall (λ e, undecodable e = true) skipped /\
    (length last <= 1)%nat /\
    w' = mkWorld (running w) (_pktqueue w') (_threads w) (_pcaps w) (handled w)
                 (trace w ++ map warn_for skipped).
Proof.
  assert (Hstay : forall w : World,
             exists skipped last,
               _pktqueue w = skipped ++ last ++ _pktqueue w /\
               Forall (λ e, undecodable e = true) skipped /\
               (length last <= 1)%nat /\
               w = mkWorld (running w) (_pktqueue w) (_threads w) (_pcaps w) (handled w)
                           (trace w ++ map warn_for skipped)).
  { intros w. exists [], []. cbn. rewrite app_nil_r.
    split; [reflexivity|]. split; [constructor|]. split; [lia | apply World_eta]. }
  assert (Hone : forall (w : World) e rest,
             _pktqueue w = e :: rest ->
             exists skipped last,
               _pktqueue w = skipped ++ last ++ _pktqueue (set_pktqueue rest w) /\
               Forall (λ e, undecodable e = true) skipped /\
               (length last <= 1)%nat /\
               set_pktqueue rest w =
                 mkWorld (running w) (_pktqueue (set_pktqueue rest w)) (_threads w) (_pcaps w)
                         (handled w) (trace w ++ map warn_for skipped)).
  { intros w e rest Hq. exists [], [e]. cbn. rewrite app_nil_r.
    split; [exact Hq|]. split; [constructor|]. split; [lia | reflexivity]. }
  induction fuel as [|fuel IH]; intros w o w'; cbn [recv_packet].
  - intros [= <- <-]. apply Hstay.
  - destruct (Queue.get timeout (_pktqueue w)) as [[[dev d] pktinfo] rest| | |] eqn:Hget;
      unfold id.
    + apply Queue_get_item in Hget.
      destruct (running (set_pktqueue rest w)) eqn:Hrun; cbn [negb].
      * destruct (decoder_get d) as [decoder|] eqn:Hdec.
        -- destruct pktinfo as [pi|]; intros [= <- <-]; eapply Hone; exact Hget.
        -- intros Hrec. apply IH in Hrec as (skipped & last & Hq & Hsk & Hlen & Hw').
           exists ((dev, d, pktinfo) :: skipped), last.
           cbn [log_warn emit set_pktqueue running _pktqueue _threads _pcaps handled trace] in *.
           split; [rewrite Hget, Hq; reflexivity|].
           split; [constructor; [unfold undecodable; cbn [fst snd]; rewrite Hdec; reflexivity | exact Hsk]|].
           split; [exact Hlen|].
           rewrite Hw'. cbn [map]. unfold warn_for at 2. cbn [fst snd].
           rewrite <- app_assoc. reflexivity.
      * intros [= <- <-]. eapply Hone; exact Hget.
    + intros Hrec.
      assert (w' = w) as -> by (destruct (running w); cbn [negb] in Hrec; congruence).
      apply Hstay.
    + intros [= <- <-]. apply Hstay.
    + intros [= <- <-]. apply Hstay.
Qed.

(** X3. [recv_packet] never touches the flag, the threads or the handles:
    a call only takes entries from the head of the queue and logs warnings.
    What it takes is a run of entries without decoder, one warning each in
    the same order, followed by at most one more entry. *)
Theorem recv_packet_consumes_prefix
  (fuel : nat) (timeout : option Q) (w : World) :
  let '(o, w') := recv_packet id fuel timeout w in
  running w' = running w /\
  _threads w' = _threads w /\
  _pcaps w' = _pcaps w /\
  exists skipped last,
    _pktqueue w = skipped ++ last ++ _pktqueue w' /\
    Forall (λ e, undecodable e = true) skipped /\
    (length last <= 1)%nat /\
    trace w' = trace w ++ map warn_for skipped.
Proof.
  destruct (recv_packet id fuel timeout w) as [o w'] eqn:Hrec.
  apply recv_packet_run in Hrec as (skipped & last & Hq & Hsk & Hlen & Hw').
  rewrite Hw' at 1 2 3. cbn [running _threads _pcaps].
  split; [reflexivity|]. split; [reflexivity|]. split; [reflexivity|].
  exists skipped, last. split; [exact Hq|]. split; [exact Hsk|]. split; [exact Hlen|].
  rewrite Hw' at 1. reflexivity.
Qed.

Lemma Queue_get_cons timeout e q :
  timeout_ok timeout = true -> Queue.get timeout (e :: q) = Queue.Item e q.
Proof.
  unfold timeout_ok, Queue.get. destruct timeout as [secs|]; [|reflexivity].
  intros ->. reflexivity.
Qed.

Lemma Queue_get_nil timeout :
  timeout_ok timeout = true ->
  Queue.get timeout [] = match timeout with None => Queue.Waits | Some _ => Queue.Empty end.
Proof.
  unfold timeout_ok, Queue.get. destruct timeout as [secs|]; [|reflexivity].
  intros ->. reflexivity.
Qed.

Lemma undecodable_no_decoder dev d pktinfo :
  undecodable (dev, d, pktinfo) = true -> decoder_get d = None.
Proof.
  unfold undecodable. cbn [fst snd]. destruct (decoder_get d); [discriminate | reflexivity].
Qed.

(** Skipping a run of entries without decoder while the flag is true. *)
Lemma recv_packet_skips timeout skipped : forall fuel w q,
  running w = true ->
  timeout_ok timeout = true ->
  _pktqueue w = skipped ++ q ->
  Forall (λ e, undecodable e = true) skipped ->
  recv_packet id (length skipped + fuel) timeout w =
    recv_packet id fuel timeout
      (mkWorld true q (_threads w) (_pcaps w) (handled w) (trace w ++ map warn_for skipped)).
Proof.
  induction skipped as [|[[dev d] pktinfo] skipped IH]; intros fuel w q Hrun Hok Hq Hsk.
  - cbn [length Nat.add map]. rewrite app_nil_r. cbn [app] in Hq.
    rewrite <- Hq, <- Hrun. rewrite <- World_eta. reflexivity.
  - apply Forall_cons in Hsk as [He Hsk]. apply undecodable_no_decoder in He.
    cbn [length Nat.add recv_packet]. rewrite Hq. cbn [app].
    rewrite (Queue_get_cons timeout _ _ Hok), He. unfold id.
    cbn [set_pktqueue running]. rewrite Hrun. cbn [negb].
    rewrite (IH fuel _ q); [|exact Hrun|exact Hok|reflexivity|exact Hsk].
    cbn [log_warn emit running _pktqueue _threads _pcaps handled trace map].
    unfold warn_for at 2. cbn [fst snd]. rewrite <- app_assoc. reflexivity.
Qed.

(** X4. While the flag is true and nothing interferes, [recv_packet]
    returns the oldest queued entry that has a decoder: the entries before
    it are skipped with one warning each, the packet is that entry's bytes
    run through the decoder of its link type, with its timestamp and device,
    and the entries after it stay queued in order. *)
Theorem recv_packet_first_decodable
  (fuel : nat) (timeout : option Q) (w : World) (skipped rest : Queue.t)
  (dev : option string) (d : Dlt) (pi : PktInfo) (decoder : Decoder) :
  running w = true ->
  timeout_ok timeout = true ->
  _pktqueue w = skipped ++ (dev, Some d, Some pi) :: rest ->
  Forall (λ e, undecodable e = true) skipped ->
  _dlt_to_decoder !! d = Some decoder ->
  (length skipped < fuel)%nat ->
  recv_packet id fuel timeout w =
    (Returned (mkReceivedPacket (timestamp pi) dev (decoder (raw pi))),
     mkWorld true rest (_threads w) (_pcaps w) (handled w) (trace w ++ map warn_for skipped)).
Proof.
  intros Hrun Hok Hq Hsk Hdec Hfuel.
  replace fuel with (length skipped + S (fuel - S (length skipped)))%nat by lia.
  rewrite (recv_packet_skips timeout skipped _ w _ Hrun Hok Hq Hsk).
  cbn [recv_packet _pktqueue]. rewrite (Queue_get_cons timeout _ _ Hok).
  unfold id. cbn [set_pktqueue running negb decoder_get mbind option_bind].
  rewrite Hdec. reflexivity.
Qed.

Lemma recv_packet_first_decodable_witness :
  running net2_mixed = true /\
  _pktqueue net2_mixed =
    [captured "wlan0" DLT_IEEE802_11 frame1] ++ captured "en0" DLT_EN10MB frame2 :: [] /\
  undecodable (captured "wlan0" DLT_IEEE802_11 frame1) = true /\
  recv_packet id 2 (Some (1 # 2)) net2_mixed =
    (Returned (mkReceivedPacket (3 # 2) (Some "en0") (mkPacket Ethernet [Byte.x45])),
     mkWorld true [] (_threads net2_mixed) (_pcaps net2_mixed) (handled net2_mixed)
       (trace net2_mixed ++ [warn_for (captured "wlan0" DLT_IEEE802_11 frame1)])).
Proof.
  split; [reflexivity|]. split; [reflexivity|]. split; [reflexivity|].
  apply (recv_packet_first_decodable 2 (Some (1 # 2)) net2_mixed
           [captured "wlan0" DLT_IEEE802_11 frame1] [] (Some "en0") DLT_EN10MB frame2
           (λ raw, mkPacket Ethernet raw)).
  - reflexivity.
  - reflexivity.
  - reflexivity.
  - repeat constructor.
  - reflexivity.
  - cbn. lia.
Defined.

(** X5. While the flag is true and nothing interferes, a queue that holds
    only entries without decoder is drained by one call, with one warning
    per entry: a call with a timeout then raises [NoPackets], a call without
    one is left waiting on the empty queue. *)
Theorem recv_packet_drains_undecodable
  (fuel : nat) (timeout : option Q) (w : World) :
  running w = true ->
  timeout_ok timeout = true ->
  Forall (λ e, undecodable e = true) (_pktqueue w) ->
  (length (_pktqueue w) < fuel)%nat ->
  recv_packet id fuel timeout w =
    (match timeout with None => Blocked | Some _ => Raised NoPackets end,
     mkWorld true [] (_threads w) (_pcaps w) (handled w)
             (trace w ++ map warn_for (_pktqueue w))).
Proof.
  intros Hrun Hok Hsk Hfuel.
  replace fuel with (length (_pktqueue w) + S (fuel - S (length (_pktqueue w))))%nat by lia.
  rewrite (recv_packet_skips timeout (_pktqueue w) _ w [] Hrun Hok);
    [|rewrite app_nil_r; reflexivity|exact Hsk].
  cbn [recv_packet _pktqueue]. rewrite (Queue_get_nil timeout Hok).
  destruct timeout; reflexivity.
Qed.

Lemma recv_packet_drains_undecodable_witness :
  running net2_noise = true /\
  Forall (λ e, undecodable e = true) (_pktqueue net2_noise) /\
  fst (recv_packet id 2 (Some 0%Q) net2_noise) = Raised NoPackets /\
  fst (recv_packet id 2 None net2_noise) = Blocked /\
  _pktqueue (snd (recv_packet id 2 None net2_noise)) = [].
Proof.
  split; [reflexivity|]. split; [repeat constructor|].
  assert (Hsk : Forall (λ e, undecodable e = true) (_pktqueue net2_noise))
    by (repeat constructor).
  split; [|split].
  - rewrite (recv_packet_drains_undecodable 2 (Some 0%Q) net2_noise eq_refl eq_refl Hsk);
      [reflexivity | cbn; lia].
  - rewrite (recv_packet_drains_undecodable 2 None net2_noise eq_refl eq_refl Hsk);
      [reflexivity | cbn; lia].
  - rewrite (recv_packet_drains_undecodable 2 None net2_noise eq_refl eq_refl Hsk);
      [reflexivity | cbn; lia].
Defined.

(** ** The worker *)

Lemma frames_snoc polls (poll : option PktInfo) :
  frames (polls ++ [poll]) =
    frames polls ++ match poll with Some pktinfo => [pktinfo] | None => [] end.
Proof.
  unfold frames. rewrite omap_app. destruct poll; reflexivity.
Qed.

(** [n] iterations of the loop body on one handle. *)
Lemma dispatch_iter_n devname p n : forall w,
  Dict.get devname (_pcaps w) = Some p ->
  let w' := Nat.iter n (dispatch_iter devname) w in
  (exists p',
     Dict.get devname (_pcaps w') = Some p' /\
     dlt p' = dlt p /\
     pending p' = drop n (pending p) /\
     closed p' = closed p) /\
  _pktqueue w' =
    _pktqueue w ++ map (captured devname (dlt p)) (frames (take n (pending p))) /\
  (forall k, k <> devname -> Dict.get k (_pcaps w') = Dict.get k (_pcaps w)) /\
  Dict.keys (_pcaps w') = Dict.keys (_pcaps w) /\
  running w' = running w /\
  _threads w' = _threads w.
Proof.
  intros w Hget. induction n as [|n IH].
  - cbn. rewrite app_nil_r. split; [exists p; auto|]. auto.
  - cbn zeta in *.
    change (Nat.iter (S n) (dispatch_iter devname) w)
      with (dispatch_iter devname (Nat.iter n (dispatch_iter devname) w)).
    destruct IH as ((p' & Hget' & Hdlt & Hpend & Hclosed) & Hq & Hother & Hkeys & Hrun & Hth).
    set (wn := Nat.iter n (dispatch_iter devname) w) in *.
    unfold dispatch_iter. rewrite Hget'. unfold Pdev_recv_packet. rewrite Hpend.
    assert (Hk : Dict.keys (Dict.set devname p' (_pcaps wn)) = Dict.keys (_pcaps wn)).
    { apply Dict_keys_set_in. eapply Dict_get_Some_key; eauto. }
    destruct (pending p !! n) as [poll|] eqn:Hlook.
    + rewrite (drop_S _ _ _ Hlook), (take_S_r _ _ _ Hlook), frames_snoc, map_app.
      destruct poll as [pktinfo|];
        cbn [emit set_pcaps pktqueue_put set_pktqueue Queue.put
             running _pktqueue _threads _pcaps handled trace dlt].
      * split.
        { eexists. split; [apply Dict_get_set_eq|]. cbn. auto. }
        split; [unfold Queue.put; rewrite Hq, Hdlt, <- app_assoc; reflexivity|].
        split; [intros k Hne; rewrite Dict_get_set_ne by congruence; auto|].
        split; [|auto].
        rewrite <- Hkeys. apply Dict_keys_set_in. eapply Dict_get_Some_key; eauto.
      * split.
        { eexists. split; [apply Dict_get_set_eq|]. cbn. auto. }
        split; [rewrite Hq; cbn [map]; rewrite app_nil_r; reflexivity|].
        split; [intros k Hne; rewrite Dict_get_set_ne by congruence; auto|].
        split; [|auto].
        rewrite <- Hkeys. apply Dict_keys_set_in. eapply Dict_get_Some_key; eauto.
    + apply lookup_ge_None in Hlook.
      rewrite (drop_ge _ n) by exact Hlook.
      rewrite (drop_ge _ (S n)) in * by lia.
      rewrite (take_ge _ (S n)) by lia. rewrite (take_ge _ n) in Hq by exact Hlook.
      cbn [emit set_pcaps running _pktqueue _threads _pcaps handled trace].
      split.
      { exists p'. split; [apply Dict_get_set_eq|]. rewrite Hpend.
        rewrite (drop_ge _ n) by exact Hlook. auto. }
      split; [exact Hq|].
      split; [intros k Hne; rewrite Dict_get_set_ne by congruence; auto|].
      split; [|auto].
      rewrite <- Hkeys. exact Hk.
Qed.

(** X6. A worker forwards the frames of its handle in the order the
    handle delivers them: after any number of polls the queue is the queue
    as it was, followed by one entry per frame polled so far, each tagged
    with the worker's device name and the handle's link type; polls that
    time out add nothing, no frame is lost or repeated, and the handles of
    the other devices are not touched. *)
Theorem worker_forwards_in_order (devname : string) (p : Pdev) (n : nat) (w : World) :
  Dict.get devname (_pcaps w) = Some p ->
  let w' := Nat.iter n (dispatch_iter devname) w in
  _pktqueue w' =
    _pktqueue w ++ map (captured devname (dlt p)) (frames (take n (pending p))) /\
  (pending <$> Dict.get devname (_pcaps w')) = Some (drop n (pending p)) /\
  (forall k, k <> devname -> Dict.get k (_pcaps w') = Dict.get k (_pcaps w)) /\
  running w' = running w.
Proof.
  intros Hget.
  destruct (dispatch_iter_n devname p n w Hget)
    as ((p' & Hget' & _ & Hpend & _) & Hq & Hother & _ & Hrun & _).
  cbn zeta. split; [exact Hq|]. split; [rewrite Hget'; cbn; rewrite Hpend; reflexivity|].
  split; [exact Hother | exact Hrun].
Qed.

Lemma worker_forwards_in_order_witness :
  Dict.get "en0" (_pcaps net2) = Some (open_dev "en0") /\
  _pktqueue (Nat.iter 3 (dispatch_iter "en0") net2) =
    [captured "en0" DLT_EN10MB frame1; captured "en0" DLT_EN10MB frame2].
Proof.
  split; [reflexivity|].
  destruct (worker_forwards_in_order "en0" (open_dev "en0") 3 net2 eq_refl) as (Hq & _).
  rewrite Hq. reflexivity.
Defined.

(** X7. Capture and receive compose. Starting from an empty queue with the
    flag true, after a worker has polled its handle any number of times, a
    call of [recv_packet] returns the first frame the handle delivered,
    decoded by the decoder of the handle's link type, with the frame's
    timestamp and the worker's device name; the later frames stay queued
    in order. *)
Theorem capture_then_receive_first
  (devname : string) (p : Pdev) (n fuel : nat) (timeout : option Q) (w : World)
  (f : PktInfo) (fs : list PktInfo) (decoder : Decoder) :
  running w = true ->
  _pktqueue w = [] ->
  Dict.get devname (_pcaps w) = Some p ->
  frames (take n (pending p)) = f :: fs ->
  _dlt_to_decoder !! dlt p = Some decoder ->
  timeout_ok timeout = true ->
  exists w',
    recv_packet id (S fuel) timeout (Nat.iter n (dispatch_iter devname) w) =
      (Returned (mkReceivedPacket (timestamp f) (Some devname) (decoder (raw f))), w') /\
    _pktqueue w' = map (captured devname (dlt p)) fs /\
    running w' = true.
Proof.
  intros Hrun Hempty Hget Hframes Hdec Hok.
  destruct (dispatch_iter_n devname p n w Hget) as (_ & Hq & _ & _ & Hrun' & _).
  cbn zeta in *. rewrite Hempty, Hframes in Hq. cbn [app map] in Hq.
  set (wn := Nat.iter n (dispatch_iter devname) w) in *.
  eexists. cbn [recv_packet]. rewrite Hq, (Queue_get_cons timeout _ _ Hok).
  unfold captured at 1, id. cbn [set_pktqueue running]. rewrite Hrun', Hrun.
  cbn [negb decoder_get mbind option_bind]. rewrite Hdec.
  split; [reflexivity|]. split; [reflexivity | cbn; congruence].
Qed.

Lemma capture_then_receive_first_witness :
  running net2 = true /\
  _pktqueue net2 = [] /\
  frames (take 3 (pending (open_dev "en0"))) = [frame1; frame2] /\
  exists w',
    recv_packet id 1 None (Nat.iter 3 (dispatch_iter "en0") net2) =
      (Returned (mkReceivedPacket 1 (Some "en0") (mkPacket Ethernet [Byte.x01; Byte.x02])), w') /\
    _pktqueue w' = [captured "en0" DLT_EN10MB frame2] /\
    running w' = true.
Proof.
  split; [reflexivity|]. split; [reflexivity|]. split; [reflexivity|].
  exact (capture_then_receive_first "en0" (open_dev "en0") 3 0 None net2 frame1 [frame2]
           (λ raw, mkPacket Ethernet raw) eq_refl eq_refl eq_refl eq_refl eq_refl eq_refl).
Defined.

(** ** Signals and the queue *)

Lemma sig_handler_queue signum w :
  _pktqueue (_sig_handler signum w) =
    (if Signal_eqb signum SIGINT
     then match _pktqueue w with [] => [sentinel] | _ => _pktqueue w end
     else _pktqueue w) /\
  running (_sig_handler signum w) = (if Signal_eqb signum SIGINT then false else running w) /\
  _pcaps (_sig_handler signum w) = _pcaps w /\
  _threads (_sig_handler signum w) = _threads w.
Proof.
  unfold _sig_handler. destruct (Signal_eqb signum SIGINT).
  - cbn [set_running log_debug emit running _pktqueue _threads _pcaps handled trace].
    destruct (_pktqueue w) as [|e q] eqn:Hq; cbn; rewrite ?Hq; auto.
  - cbn. auto.
Qed.


(** X9. The sentinel releases exactly one receiver. When [SIGINT] finds
    the queue empty, the next [recv_packet] (waiting without timeout, or
    with one) takes the sentinel and raises [Shutdown]; the queue is then
    empty again, so a further call without timeout is left waiting, while a
    further call with a timeout raises [Shutdown] when it times out. *)
Theorem sentinel_releases_one_receiver (fuel : nat) (timeout : option Q) (w : World) :
  _pktqueue w = [] ->
  timeout_ok timeout = true ->
  exists w',
    recv_packet id (S fuel) timeout (_sig_handler SIGINT w) = (Raised Shutdown, w') /\
    _pktqueue w' = [] /\
    fst (recv_packet id (S fuel) None w') = Blocked /\
    (forall secs, timeout_ok (Some secs) = true ->
       fst (recv_packet id (S fuel) (Some secs) w') = Raised Shutdown).
Proof.
  intros Hempty Hok.
  destruct (sig_handler_queue SIGINT w) as (Hq & Hrun & _). cbn [Signal_eqb] in Hq, Hrun.
  rewrite Hempty in Hq.
  exists (set_pktqueue [] (_sig_handler SIGINT w)).
  split; [|split; [reflexivity|split]].
  - cbn [recv_packet]. rewrite Hq, (Queue_get_cons timeout _ _ Hok).
    unfold sentinel, id. cbn [set_pktqueue running]. rewrite Hrun. reflexivity.
  - reflexivity.
  - intros secs Hsecs. cbn [recv_packet set_pktqueue _pktqueue].
    rewrite (Queue_get_nil (Some secs) Hsecs). unfold id. cbn [set_pktqueue running].
    rewrite Hrun. reflexivity.
Qed.

Lemma sentinel_releases_one_receiver_witness :
  _pktqueue net2 = [] /\
  exists w',
    recv_packet id 1 None (_sig_handler SIGINT net2) = (Raised Shutdown, w') /\
    _pktqueue w' = [] /\
    fst (recv_packet id 1 None w') = Blocked.
Proof.
  split; [reflexivity|].
  destruct (sentinel_releases_one_receiver 0 None net2 eq_refl eq_refl)
    as (w' & H1 & H2 & H3 & _).
  exists w'. auto.
Defined.

(** X10. [shutdown] puts no sentinel. A [shutdown] that finds the flag
    true returns with the flag false and every worker joined, and what the
    queue holds afterwards is what it held before, followed at most by
    entries that are not the sentinel. If the queue is then empty, a
    [recv_packet] without timeout is left waiting on it, while one with a
    timeout raises [Shutdown]; if it holds entries, each call drops the
    oldest one and raises [Shutdown]. *)
Theorem shutdown_puts_no_sentinel (fuel : nat) (w : World) :
  running w = true ->
  exists w1,
    shutdown (S fuel) w = (Returned tt, w1) /\
    running w1 = false /\
    Forall (λ t, th_done t = true) (_threads w1) /\
    (exists added, _pktqueue w1 = _pktqueue w ++ added /\ sentinel ∉ added) /\
    (_pktqueue w1 = [] ->
       forall n, fst (recv_packet id (S n) None w1) = Blocked) /\
    (_pktqueue w1 = [] ->
       forall n secs, timeout_ok (Some secs) = true ->
         fst (recv_packet id (S n) (Some secs) w1) = Raised Shutdown) /\
    (forall e rest n timeout,
       _pktqueue w1 = e :: rest -> timeout_ok timeout = true ->
       recv_packet id (S n) timeout w1 = (Raised Shutdown, set_pktqueue rest w1)).
Proof.
  intros Hrun. exists (stopped w).
  split; [apply shutdown_running; exact Hrun|].
  split; [reflexivity|].
  split.
  { cbn [stopped _threads]. apply Forall_forall. intros t Ht.
    apply list_elem_of_fmap in Ht as (t0 & -> & _). reflexivity. }
  split.
  { exists []. cbn [stopped _pktqueue]. rewrite app_nil_r.
    split; [reflexivity | apply not_elem_of_nil]. }
  split; [|split].
  - intros Hempty n. cbn [recv_packet]. rewrite Hempty. reflexivity.
  - intros Hempty n secs Hsecs. cbn [recv_packet]. rewrite Hempty.
    rewrite (Queue_get_nil (Some secs) Hsecs). reflexivity.
  - intros e rest n timeout Hq Hok. cbn [recv_packet]. rewrite Hq.
    rewrite (Queue_get_cons timeout _ _ Hok). destruct e as [[dev d] pktinfo].
    reflexivity.
Qed.

Lemma shutdown_puts_no_sentinel_witness :
  running net2 = true /\
  exists w1,
    shutdown 1 net2 = (Returned tt, w1) /\
    running w1 = false /\
    (_pktqueue w1 = [] -> fst (recv_packet id 1 None w1) = Blocked).
Proof.
  split; [reflexivity|].
  destruct (shutdown_puts_no_sentinel 0 net2 eq_refl) as (w1 & H1 & H2 & _ & _ & H3 & _).
  exists w1. split; [exact H1|]. split; [exact H2|]. intros Hempty. apply H3. exact Hempty.
Defined.

(** ** Sending *)

(** X11. A [send_packet] with a [Packet] on a device that has a handle
    hands the bytes of [to_bytes] to that handle, once, after the debug
    line; it touches no other handle, closes nothing and leaves flag, queue
    and threads alone. When the handle reports a failure, the exception of
    the pcap layer leaves [send_packet] and nothing is injected. *)
Theorem send_packet_injects_on_one_handle
  (_lookup_devname : Z -> Exn + string) (dev : DevRef) (pkt : Packet) (w : World)
  (devname : string) (pdev : Pdev) :
  resolve _lookup_devname dev = inr devname ->
  Dict.get devname (_pcaps w) = Some pdev ->
  let '(o, w') := send_packet _lookup_devname dev (PyPacket pkt) w in
  (can_inject pdev = true ->
     o = Returned tt /\
     (injected <$> Dict.get devname (_pcaps w')) = Some (injected pdev ++ [to_bytes pkt]) /\
     trace w' = trace w ++
       [EvLog DEBUG (mkMsg "Sending packet on device {}: {}" [VStr devname; VPacket pkt]);
        EvInject devname (to_bytes pkt)]) /\
  (can_inject pdev = false ->
     o = Raised PcapException /\
     _pcaps w' = _pcaps w /\
     trace w' = trace w ++
       [EvLog DEBUG (mkMsg "Sending packet on device {}: {}" [VStr devname; VPacket pkt])]) /\
  (forall k, k <> devname -> Dict.get k (_pcaps w') = Dict.get k (_pcaps w)) /\
  Dict.keys (_pcaps w') = Dict.keys (_pcaps w) /\
  close_counts w' = close_counts w /\
  running w' = running w /\
  _pktqueue w' = _pktqueue w /\
  _threads w' = _threads w.
Proof.
  intros Hres Hget. unfold send_packet. rewrite Hres, Hget.
  unfold Pdev_send_packet. destruct (can_inject pdev) eqn:Hinj.
  - cbn [log_debug emit set_pcaps running _pktqueue _threads _pcaps handled trace].
    split.
    { intros _. split; [reflexivity|]. rewrite Dict_get_set_eq. cbn.
      split; [reflexivity|]. rewrite <- app_assoc. reflexivity. }
    split; [discriminate|].
    split; [intros k Hne; apply Dict_get_set_ne; congruence|].
    split; [apply Dict_keys_set_in; eapply Dict_get_Some_key; eauto|].
    split; [|auto].
    unfold close_counts. cbn [_pcaps]. eapply Dict_set_close_counts; eauto.
  - unfold close_counts.
    cbn [log_debug emit running _pktqueue _threads _pcaps handled trace].
    split; [discriminate|]. split; [intros _; repeat split|].
    repeat split.
Qed.

Lemma send_packet_injects_on_one_handle_witness :
  resolve no_ifnum (DevIntf (mkInterface "en0" 0)) = inr "en0" /\
  Dict.get "en0" (_pcaps net2) = Some (open_dev "en0") /\
  (injected <$>
     Dict.get "en0"
       (_pcaps (snd (send_packet no_ifnum (DevIntf (mkInterface "en0" 0))
                       (PyPacket (mkPacket Ethernet [Byte.x07])) net2))))
    = Some [[Byte.x07]].
Proof.
  split; [reflexivity|]. split; [reflexivity|].
  pose proof (send_packet_injects_on_one_handle no_ifnum (DevIntf (mkInterface "en0" 0))
                (mkPacket Ethernet [Byte.x07]) net2 "en0" (open_dev "en0") eq_refl eq_refl)
    as Hsend.
  destruct (send_packet no_ifnum (DevIntf (mkInterface "en0" 0))
              (PyPacket (mkPacket Ethernet [Byte.x07])) net2) as [o w'].
  destruct Hsend as (Hok & _). destruct (Hok eq_refl) as (_ & Hinj & _).
  exact Hinj.
Defined.

(** ** One worker per handle *)

Lemma dispatch_iter_shape devname w :
  Dict.keys (_pcaps (dispatch_iter devname w)) = Dict.keys (_pcaps w) /\
  _threads (dispatch_iter devname w) = _threads w.
Proof.
  destruct (Dict.get devname (_pcaps w)) as [p|] eqn:Hget.
  - destruct (dispatch_iter_n devname p 1 w Hget) as (_ & _ & _ & Hkeys & _ & Hth).
    auto.
  - unfold dispatch_iter. rewrite Hget. auto.
Qed.

Lemma stopped_shape w :
  Dict.keys (_pcaps (stopped w)) = Dict.keys (_pcaps w) /\
  map th_dev (_threads (stopped w)) = map th_dev (_threads w).
Proof.
  unfold stopped, Dict.keys. cbn [_pcaps _threads]. rewrite !map_map. auto.
Qed.

Lemma send_packet_shape (_lookup_devname : Z -> Exn + string) dev packet w :
  Dict.keys (_pcaps (snd (send_packet _lookup_devname dev packet w))) = Dict.keys (_pcaps w) /\
  _threads (snd (send_packet _lookup_devname dev packet w)) = _threads w.
Proof.
  unfold send_packet. destruct (resolve _lookup_devname dev) as [e|devname]; [auto|].
  destruct (Dict.get devname (_pcaps w)) as [pdev|] eqn:Hget; [|auto].
  destruct packet as [|pkt|ty]; [auto| |auto].
  destruct (Pdev_send_packet (to_bytes pkt) pdev); [|auto].
  cbn [snd log_debug emit set_pcaps _pcaps _threads]. split; [|reflexivity].
  apply Dict_keys_set_in. eapply Dict_get_Some_key; eauto.
Qed.

(** X12. That every handle has exactly one worker, in dictionary order and
    under pairwise different names, is an invariant of the operations: it
    is kept by a poll of any worker, by the signal handler, by [shutdown],
    by [send_packet] and by [recv_packet], whatever their outcome. *)
Theorem one_worker_per_handle_kept (w : World) :
  one_worker_per_handle w ->
  (forall devname, one_worker_per_handle (dispatch_iter devname w)) /\
  (forall signum, one_worker_per_handle (_sig_handler signum w)) /\
  (forall fuel, one_worker_per_handle (snd (shutdown (S fuel) w))) /\
  (forall _lookup_devname dev packet,
     one_worker_per_handle (snd (send_packet _lookup_devname dev packet w))) /\
  (forall fuel timeout, one_worker_per_handle (snd (recv_packet id fuel timeout w))).
Proof.
  unfold one_worker_per_handle. intros [Hth Hnd].
  split; [|split; [|split; [|split]]].
  - intros devname. destruct (dispatch_iter_shape devname w) as [-> ->]. auto.
  - intros signum. destruct (sig_handler_queue signum w) as (_ & _ & -> & ->). auto.
  - intros fuel. destruct (running w) eqn:Hrun.
    + rewrite (shutdown_running fuel w Hrun). cbn [snd].
      destruct (stopped_shape w) as [-> ->]. auto.
    + rewrite (shutdown_stopped (S fuel) w Hrun). auto.
  - intros lookup dev packet.
    destruct (send_packet_shape lookup dev packet w) as [-> ->]. auto.
  - intros fuel timeout.
    destruct (recv_packet id fuel timeout w) as [o w'] eqn:Hrec.
    apply recv_packet_run in Hrec as (skipped & last & _ & _ & _ & ->). cbn. auto.
Qed.

Lemma one_worker_per_handle_kept_witness :
  one_worker_per_handle net2 /\
  one_worker_per_handle (snd (shutdown 1 (dispatch_iter "en0" net2))).
Proof.
  assert (H0 : one_worker_per_handle net2).
  { split; [reflexivity|]. change (NoDup ["en0"; "lo0"]).
    apply NoDup_cons. split; [|apply NoDup_singleton].
    intros Hin. apply list_elem_of_singleton in Hin. discriminate. }
  split; [exact H0|].
  destruct (one_worker_per_handle_kept net2 H0) as (Hpoll & _).
  destruct (one_worker_per_handle_kept (dispatch_iter "en0" net2) (Hpoll "en0"))
    as (_ & _ & Hshut & _).
  apply Hshut.
Defined.

(** ** [main_real] *)

(** X13. [main_real] shuts the network object down in a dry run (without
    calling the user code) and when the user code returns; when the user
    code raises it does not: the object is left exactly as the user code
    left it, with no thread joined and no handle closed. The exception is
    reported, then raised again under [nohandle], and otherwise swallowed,
    with a post-mortem debugger session unless [nopdb] is set. *)
Theorem main_real_shuts_down_unless_user_code_raises
  (usercode_entry_point : M unit) (fuel : nat) (options : Options) (p : Process) :
  (dryrun options = true ->
     main_real usercode_entry_point fuel options p =
       (fst (shutdown fuel
               (log_info (text "Imported your code successfully.  Exiting dry run.") (net p))),
        mkProcess
          (snd (shutdown fuel
                  (log_info (text "Imported your code successfully.  Exiting dry run.") (net p))))
          (console p))) /\
  (dryrun options = false ->
     forall w1, usercode_entry_point (net p) = (Returned tt, w1) ->
       main_real usercode_entry_point (S fuel) options p =
         (Returned tt, mkProcess (if running w1 then stopped w1 else w1) (console p))) /\
  (dryrun options = false ->
     forall e w1, usercode_entry_point (net p) = (Raised e, w1) ->
       main_real usercode_entry_point fuel options p =
         (if nohandle options then Raised e else Returned tt,
          mkProcess w1
            (console p ++ [OutFailure e; OutBanner] ++
             (if nohandle options || nopdb options then [] else [OutPdbNotice; OutPostMortem])))).
Proof.
  split; [|split].
  - intros Hdry. unfold main_real. rewrite Hdry.
    destruct (shutdown fuel _) as [o w2]. reflexivity.
  - intros Hdry w1 Huser. unfold main_real. rewrite Hdry, Huser.
    destruct (running w1) eqn:Hrun.
    + rewrite (shutdown_running fuel w1 Hrun). reflexivity.
    + rewrite (shutdown_stopped (S fuel) w1 Hrun). reflexivity.
  - intros Hdry e w1 Huser. unfold main_real. rewrite Hdry, Huser.
    destruct (nohandle options), (nopdb options); cbn [negb orb];
      rewrite <- ?app_assoc, ?app_nil_r; reflexivity.
Qed.

Lemma main_real_shuts_down_unless_user_code_raises_witness :
  receive_once (net interrupted) = (Raised Shutdown, set_pktqueue [] (sigint net2)) /\
  main_real receive_once 1 quiet interrupted =
    (Returned tt,
     mkProcess (set_pktqueue [] (sigint net2)) [OutFailure Shutdown; OutBanner]) /\
  close_counts (set_pktqueue [] (sigint net2)) = [0; 0]%nat.
Proof.
  split; [reflexivity|]. split; [|reflexivity].
  destruct (main_real_shuts_down_unless_user_code_raises receive_once 1 quiet interrupted)
    as (_ & _ & Hraise).
  exact (Hraise eq_refl Shutdown (set_pktqueue [] (sigint net2)) eq_refl).
Defined.

(** ** The sequence of the unit test [testReal] *)

(** X14. In any state, for a device that has a handle and a name that has
    none: the three misuses of [send_packet] raise [SwitchyException] and
    change nothing; after [SIGINT], [shutdown] returns without closing
    anything, so the device still has its handle; the queue is not empty,
    whatever the workers had put before, and [recv_packet] raises
    [Shutdown], as it does in every state with the flag false and
    something queued; a [shutdown] that finds the flag true leaves it
    false. *)
Theorem interrupt_then_shutdown_then_receive
  (_lookup_devname : Z -> Exn + string) (w : World)
  (dev bad : string) (pdev : Pdev) (pkt : Packet) (ty : string) (fuel : nat) :
  Dict.get dev (_pcaps w) = Some pdev ->
  Dict.get bad (_pcaps w) = None ->
  let w1 := _sig_handler SIGINT w in
  (exists e, send_packet _lookup_devname (DevName bad) (PyPacket pkt) w = (Raised e, w) /\
             exn_class e = cSwitchyException) /\
  (exists e, send_packet _lookup_devname (DevName dev) (PyOther ty) w = (Raised e, w) /\
             exn_class e = cSwitchyException) /\
  (exists e, send_packet _lookup_devname (DevName dev) PyNone w = (Raised e, w) /\
             exn_class e = cSwitchyException) /\
  shutdown fuel w1 = (Returned tt, w1) /\
  Dict.get dev (_pcaps w1) = Some pdev /\
  close_counts w1 = close_counts w /\
  _pktqueue w1 <> [] /\
  (forall w2 n timeout,
     running w2 = false -> _pktqueue w2 <> [] -> timeout_ok timeout = true ->
     fst (recv_packet id (S n) timeout w2) = Raised Shutdown) /\
  (forall n timeout, timeout_ok timeout = true ->
     fst (recv_packet id (S n) timeout w1) = Raised Shutdown) /\
  (running w = true ->
   exists w2, shutdown (S fuel) w = (Returned tt, w2) /\ running w2 = false).
Proof.
  intros Hdev Hbad w1.
  destruct (sig_handler_queue SIGINT w) as (Hq & Hoff & Hpcaps & _).
  cbn [Signal_eqb] in Hq, Hoff. fold w1 in Hq, Hoff, Hpcaps.
  assert (Hnonempty : _pktqueue w1 <> []).
  { rewrite Hq. destruct (_pktqueue w); discriminate. }
  assert (Hrecv : forall w2 n timeout,
             running w2 = false -> _pktqueue w2 <> [] -> timeout_ok timeout = true ->
             fst (recv_packet id (S n) timeout w2) = Raised Shutdown).
  { intros w2 n timeout Hoff2 Hne Hok. cbn [recv_packet].
    destruct (_pktqueue w2) as [|[[dev0 d0] pktinfo0] rest] eqn:Hq2; [contradiction|].
    rewrite (Queue_get_cons timeout _ _ Hok). unfold id. cbn [set_pktqueue running].
    rewrite Hoff2. reflexivity. }
  split.
  { eexists. split; [eapply send_packet_unknown_device; [reflexivity | exact Hbad]|].
    reflexivity. }
  split.
  { eexists. split;
      [eapply send_packet_not_a_packet; [reflexivity | exact Hdev | reflexivity]|].
    reflexivity. }
  split.
  { eexists. split;
      [eapply send_packet_not_a_packet; [reflexivity | exact Hdev | reflexivity]|].
    reflexivity. }
  split; [apply shutdown_stopped; exact Hoff|].
  split; [rewrite Hpcaps; exact Hdev|].
  split; [unfold close_counts; rewrite Hpcaps; reflexivity|].
  split; [exact Hnonempty|].
  split; [exact Hrecv|].
  split; [intros n timeout Hok; apply Hrecv; assumption|].
  intros Hrun. exists (stopped w). split; [apply shutdown_running; exact Hrun | reflexivity].
Qed.

Lemma interrupt_then_shutdown_then_receive_witness :
  Dict.get "en0" (_pcaps net2_flooded) <> None /\
  Dict.get "baddev" (_pcaps net2_flooded) = None /\
  _pktqueue (_sig_handler SIGINT net2_flooded) =
    [captured "en0" DLT_EN10MB frame1; captured "en0" DLT_EN10MB frame2] /\
  shutdown 1 (_sig_handler SIGINT net2_flooded) =
    (Returned tt, _sig_handler SIGINT net2_flooded) /\
  fst (recv_packet id 1 None (_sig_handler SIGINT net2_flooded)) = Raised Shutdown.
Proof.
  split; [discriminate|]. split; [reflexivity|]. split; [reflexivity|].
  destruct (Dict.get "en0" (_pcaps net2_flooded)) as [pdev|] eqn:Hget; [|discriminate].
  destruct (interrupt_then_shutdown_then_receive no_ifnum net2_flooded
              "en0" "baddev" pdev (mkPacket Ethernet []) "<class 'bytes'>" 1 Hget eq_refl)
    as (_ & _ & _ & Hshut & _ & _ & _ & _ & Hrecv & _).
  split; [exact Hshut | apply Hrecv; reflexivity].
Defined.
